(** * VProxySuite worker core: parser, orchestrator, sandboxed runner

    A shallow embedding of
      - services/worker/src/core/parsers.py
      - services/worker/src/core/runner.py
      - services/worker/src/plugins/base.py
      - services/worker/src/testsuite/common.py
      - services/worker/src/config/settings.py
    and theorems about the behaviour of these modules.

    Python values are modelled by [pyval] (JSON-like data; numbers are
    integers), Python [str] by Rocq [string] read as a sequence of code
    points below 256, exceptions by the [exn] type and the [py] result
    type (a call returns, raises, or never completes).  Third-party
    libraries whose tables cannot be reproduced here (idna, yarl,
    base64 + json decoding) are parameters of a [Section]. *)

From stdpp Require Import gmap strings list pretty sorting.
From Stdlib Require Import ZArith Ascii String.

Local Open Scope string_scope.
Local Open Scope Z_scope.
Set Warnings "-register-all".

(** ** Exceptions and the result type *)

Inductive exn : Type :=
  | ValueError (msg : string)
  | KeyError (msg : string)
  | TypeError (msg : string)
  | AttributeError (msg : string)
  | NameError (msg : string)
  | RuntimeError (msg : string).

(** How a call ends: it returns a value, it raises, or it never
    completes (a coroutine that waits for something that is never
    granted). *)
Inductive py (A : Type) : Type :=
  | Ret (a : A)
  | Raise (e : exn)
  | Hang.
Arguments Ret {A} a.
Arguments Raise {A} e.
Arguments Hang {A}.

Definition py_bind {A B} (m : py A) (f : A -> py B) : py B :=
  match m with
  | Ret a => f a
  | Raise e => Raise e
  | Hang => Hang
  end.

(** [try: m / except Exception as e: handler(e)] *)
Definition catch {A} (m : py A) (handler : exn -> py A) : py A :=
  match m with
  | Ret a => Ret a
  | Raise e => handler e
  | Hang => Hang
  end.

(** [try: m / except Exception as e: raise e' from e] *)
Definition reraise_as {A} (m : py A) (e' : exn) : py A :=
  catch m (fun _ => Raise e').

Declare Scope py_scope.
Delimit Scope py_scope with py.
Notation "x <- m ;; k" := (py_bind m (fun x => k))
  (at level 100, m at next level, right associativity) : py_scope.

Definition is_ret {A} (m : py A) : bool :=
  match m with Ret _ => true | _ => false end.

(** ** Python [str] operations *)

Module PyStr.

(** Code points below 256 for which [str.isspace()] holds. *)
Definition is_space (c : ascii) : bool :=
  let n := nat_of_ascii c in
  ((9 <=? n) && (n <=? 13) || (28 <=? n) && (n <=? 32)
   || (n =? 133) || (n =? 160))%nat.

Fixpoint drop_while (p : ascii -> bool) (s : string) : string :=
  match s with
  | EmptyString => EmptyString
  | String c s' => if p c then drop_while p s' else s
  end.

Definition lstrip_by (p : ascii -> bool) (s : string) : string :=
  drop_while p s.
(** Removal of the longest suffix of characters in [p]. *)
Fixpoint rstrip_by (p : ascii -> bool) (s : string) : string :=
  match s with
  | EmptyString => EmptyString
  | String c s' =>
      match rstrip_by p s' with
      | EmptyString => if p c then EmptyString else String c EmptyString
      | r => String c r
      end
  end.

(** [s.strip()] *)
Definition strip (s : string) : string := rstrip_by is_space (lstrip_by is_space s).

(** [s.strip(chars)] *)
Definition in_chars (chars : string) (c : ascii) : bool :=
  bool_decide (c ∈ list_ascii_of_string chars).
Definition strip_chars (chars s : string) : string :=
  rstrip_by (in_chars chars) (lstrip_by (in_chars chars) s).

(** [s.lower()] on code points below 256. *)
Definition lower_char (c : ascii) : ascii :=
  let n := nat_of_ascii c in
  if ((65 <=? n) && (n <=? 90)
      || (192 <=? n) && (n <=? 222) && negb (n =? 215))%nat
  then ascii_of_nat (n + 32) else c.

Fixpoint lower (s : string) : string :=
  match s with
  | EmptyString => EmptyString
  | String c s' => String (lower_char c) (lower s')
  end.

(** [s.startswith(p)] *)
Definition startswith (s p : string) : bool := String.prefix p s.

(** [s[n:]] for [0 <= n] *)
Fixpoint drop (n : nat) (s : string) : string :=
  match n, s with
  | O, _ => s
  | S n', String _ s' => drop n' s'
  | S _, EmptyString => EmptyString
  end.

(** [s.replace(pat, empty)] for a non-empty [pat]: every non-overlapping
    occurrence, scanning from the left, is removed.  [skip] counts the
    characters of the current occurrence still to be dropped. *)
Fixpoint remove_all_aux (pat : string) (skip : nat) (s : string) : string :=
  match s with
  | EmptyString => EmptyString
  | String c s' =>
      match skip with
      | S k => remove_all_aux pat k s'
      | O => if String.prefix pat s
             then remove_all_aux pat (Nat.pred (String.length pat)) s'
             else String c (remove_all_aux pat O s')
      end
  end.
Definition remove_all (pat s : string) : string := remove_all_aux pat O s.

(** [c * n] *)
Fixpoint repeat (c : ascii) (n : nat) : string :=
  match n with
  | O => EmptyString
  | S n' => String c (repeat c n')
  end.

Definition is_digit (c : ascii) : bool :=
  let n := nat_of_ascii c in ((48 <=? n) && (n <=? 57))%nat.

Definition digit_val (c : ascii) : option N :=
  if is_digit c then Some (N.of_nat (nat_of_ascii c - 48)) else None.

Definition hex_val (c : ascii) : option N :=
  let n := nat_of_ascii c in
  if is_digit c then Some (N.of_nat (n - 48))
  else if ((97 <=? n) && (n <=? 102))%nat then Some (N.of_nat (n - 87))
  else if ((65 <=? n) && (n <=? 70))%nat then Some (N.of_nat (n - 55))
  else None.

(** The digit part of an integer literal as [int()] reads it: digits
    of the base, single underscores allowed between digits only.
    [prev] tells whether the previous character was a digit. *)
Fixpoint int_body (digit : ascii -> option N) (base : N)
         (s : string) (acc : N) (prev : bool) : option N :=
  match s with
  | EmptyString => if prev then Some acc else None
  | String c s' =>
      if Ascii.eqb c "_"
      then (if prev then int_body digit base s' acc false else None)
      else match digit c with
           | Some d => int_body digit base s' (acc * base + d)%N true
           | None => None
           end
  end.

Definition split_sign (s : string) : bool * string :=
  match s with
  | String "-" s' => (true, s')
  | String "+" s' => (false, s')
  | _ => (false, s)
  end.

Definition apply_sign (neg : bool) (n : N) : Z :=
  if neg then - Z.of_N n else Z.of_N n.

(** The white space [int()] skips around a literal: the ASCII white
    space, and the two code points between 128 and 255 that are white
    space (a string with a character above 127 is first rewritten,
    white space becoming a blank).  The separators 28-31, which
    [str.strip] removes, are not skipped. *)
Definition is_int_space (c : ascii) : bool :=
  let n := nat_of_ascii c in
  ((9 <=? n) && (n <=? 13) || (n =? 32) || (n =? 133) || (n =? 160))%nat.

Definition int_strip (s : string) : string :=
  rstrip_by is_int_space (lstrip_by is_int_space s).

(** The number of digits of a literal: its characters other than the
    underscores. *)
Fixpoint count_digits (s : string) : N :=
  match s with
  | EmptyString => 0%N
  | String c s' =>
      if Ascii.eqb c "_" then count_digits s' else N.succ (count_digits s')
  end.

(** [sys.get_int_max_str_digits()]: the longest decimal literal that
    [int()] reads and the longest that [str()] writes. *)
Definition max_str_digits : N := 4300.

(** [int(s)] (base 10): surrounding white space, an optional sign,
    then the digits, at most [max_str_digits] of them, leading zeros
    included.  [None] stands for [ValueError]. *)
Definition int10 (s : string) : option Z :=
  let (neg, body) := split_sign (int_strip s) in
  match int_body digit_val 10 body 0%N false with
  | Some n =>
      if (max_str_digits <? count_digits body)%N then None
      else Some (apply_sign neg n)
  | None => None
  end.

(** [int(s, 16)]: white space and sign as above, then an optional [0x]
    / [0X] prefix, which may be followed by one underscore, then the
    digits; the length is not limited in a base that is a power of
    two. *)
Definition strip_hex_prefix (s : string) : string :=
  match s with
  | String "0" (String x s') =>
      if Ascii.eqb x "x" || Ascii.eqb x "X"
      then match s' with
           | String "_" s'' => s''
           | _ => s'
           end
      else s
  | _ => s
  end.

Definition int16 (s : string) : option Z :=
  let (neg, body) := split_sign (int_strip s) in
  apply_sign neg <$> int_body hex_val 16 (strip_hex_prefix body) 0%N false.

End PyStr.

(** ** Python values (JSON-like) *)

Inductive pyval : Type :=
  | PNone
  | PBool (b : bool)
  | PInt (z : Z)
  | PStr (s : string)
  | PList (l : list pyval)
  | PDict (d : list (string * pyval)).

Module PyVal.

(** Truth value of an object, as [or], [and], [not] and [if] test it. *)
Definition truthy (v : pyval) : bool :=
  match v with
  | PNone => false
  | PBool b => b
  | PInt z => negb (z =? 0)
  | PStr s => negb (String.eqb s EmptyString)
  | PList l => match l with [] => false | _ => true end
  | PDict d => match d with [] => false | _ => true end
  end.

(** [type(v).__name__] *)
Definition type_name (v : pyval) : string :=
  match v with
  | PNone => "NoneType"
  | PBool _ => "bool"
  | PInt _ => "int"
  | PStr _ => "str"
  | PList _ => "list"
  | PDict _ => "dict"
  end.

(** [d.get(k)] on the items of a dict. *)
Fixpoint assoc (k : string) (d : list (string * pyval)) : option pyval :=
  match d with
  | [] => None
  | (k', v) :: d' => if String.eqb k k' then Some v else assoc k d'
  end.

Definition hex_digit (n : nat) : ascii :=
  if (n <? 10)%nat then ascii_of_nat (48 + n) else ascii_of_nat (87 + n).

Definition backslash : ascii := "092"%char.
Definition dquote : ascii := "034"%char.
Definition squote : ascii := "039"%char.

Definition hex_escape (c : ascii) : string :=
  let n := nat_of_ascii c in
  String backslash (String "x" (String (hex_digit (n / 16))
                                  (String (hex_digit (n mod 16)) EmptyString))).

(** Code points below 256 that [repr] prints as they are. *)
Definition printable (c : ascii) : bool :=
  let n := nat_of_ascii c in
  ((32 <=? n) && (n <? 127) || (161 <=? n) && negb (n =? 173))%nat.

Definition contains_char (c : ascii) (s : string) : bool :=
  bool_decide (c ∈ list_ascii_of_string s).

Fixpoint repr_chars (quote : ascii) (s : string) : string :=
  match s with
  | EmptyString => EmptyString
  | String c s' =>
      (if Ascii.eqb c quote || Ascii.eqb c backslash
       then String backslash (String c EmptyString)
       else if Ascii.eqb c "009" then String backslash "t"
       else if Ascii.eqb c "010" then String backslash "n"
       else if Ascii.eqb c "013" then String backslash "r"
       else if printable c then String c EmptyString
       else hex_escape c) +:+ repr_chars quote s'
  end.

(** [repr(s)] of a [str] *)
Definition repr_str (s : string) : string :=
  let quote := if contains_char squote s && negb (contains_char dquote s)
               then dquote else squote in
  String quote (repr_chars quote s) +:+ String quote EmptyString.

Fixpoint join (sep : string) (l : list string) : string :=
  match l with
  | [] => EmptyString
  | [x] => x
  | x :: l' => x +:+ sep +:+ join sep l'
  end.

(** [repr(v)] *)
Fixpoint repr (v : pyval) : string :=
  match v with
  | PNone => "None"
  | PBool b => if b then "True" else "False"
  | PInt z => pretty z
  | PStr s => repr_str s
  | PList l => "[" +:+ join ", " (map repr l) +:+ "]"
  | PDict d =>
      "{" +:+ join ", " (map (fun kv => repr_str (fst kv) +:+ ": " +:+ repr (snd kv)) d)
          +:+ "}"
  end.

(** [str(v)] *)
Definition str (v : pyval) : string :=
  match v with
  | PStr s => s
  | _ => repr v
  end.

(** Whether every integer in [v] has at most [max_str_digits] decimal
    digits, the sign not counted: [repr] and [str] write no longer
    one. *)
Fixpoint writable (v : pyval) : bool :=
  match v with
  | PInt z => Z.abs z <? 10 ^ Z.of_N PyStr.max_str_digits
  | PList l => forallb writable l
  | PDict d => forallb (fun kv => writable (snd kv)) d
  | _ => true
  end.

Definition digit_limit_error : exn :=
  ValueError ("Exceeds the limit (4300 digits) for integer string conversion; "
                +:+ "use sys.set_int_max_str_digits() to increase the limit").

(** The call [str(v)]: the text above, or the [ValueError] of the
    digit limit. *)
Definition to_str (v : pyval) : py string :=
  if writable v then Ret (str v) else Raise digit_limit_error.

End PyVal.

(** [str(e)]: the message, and for a [KeyError] the [repr] of its key. *)
Definition exn_str (e : exn) : string :=
  match e with
  | KeyError m => PyVal.repr_str m
  | ValueError m | TypeError m | AttributeError m
  | NameError m | RuntimeError m => m
  end.

(** ** Regular expressions

    The patterns of parsers.py use no group reference and no look-around
    where they decide a result, so whether [re.match] finds a match is a
    question of language membership, decided here with derivatives. *)

Module Re.

Inductive re : Type :=
  | Void
  | Eps
  | Cls (p : ascii -> bool)
  | Cat (r1 r2 : re)
  | Alt (r1 r2 : re)
  | Star (r : re).

Fixpoint nullable (r : re) : bool :=
  match r with
  | Void => false
  | Eps => true
  | Cls _ => false
  | Cat r1 r2 => nullable r1 && nullable r2
  | Alt r1 r2 => nullable r1 || nullable r2
  | Star _ => true
  end.

Fixpoint deriv (c : ascii) (r : re) : re :=
  match r with
  | Void => Void
  | Eps => Void
  | Cls p => if p c then Eps else Void
  | Cat r1 r2 =>
      if nullable r1
      then Alt (Cat (deriv c r1) r2) (deriv c r2)
      else Cat (deriv c r1) r2
  | Alt r1 r2 => Alt (deriv c r1) (deriv c r2)
  | Star r1 => Cat (deriv c r1) (Star r1)
  end.

Fixpoint fullmatch (r : re) (s : string) : bool :=
  match s with
  | EmptyString => nullable r
  | String c s' => fullmatch (deriv c r) s'
  end.

Definition chr (c : ascii) : re := Cls (Ascii.eqb c).
Definition range (lo hi : ascii) : re :=
  Cls (fun c => (nat_of_ascii lo <=? nat_of_ascii c)%nat
                && (nat_of_ascii c <=? nat_of_ascii hi)%nat).
Definition opt (r : re) : re := Alt r Eps.
Definition plus (r : re) : re := Cat r (Star r).
Fixpoint times (n : nat) (r : re) : re :=
  match n with
  | O => Eps
  | S n' => Cat r (times n' r)
  end.

(** [\d]: among the code points below 256 the decimal digits are 0-9. *)
Definition digit : re := range "0" "9".

(** A final [$] matches at the end of the string and also just before
    a newline that ends the string. *)
Definition dollar : re := opt (chr "010").

(** [pattern.match(s)] for a pattern [^r$], as a truth value. *)
Definition match_anchored (r : re) (s : string) : bool :=
  fullmatch (Cat r dollar) s.

(** The language of a pattern. *)
Inductive Matches : re -> string -> Prop :=
  | MEps : Matches Eps EmptyString
  | MCls p c : p c = true -> Matches (Cls p) (String c EmptyString)
  | MCat r1 r2 s1 s2 :
      Matches r1 s1 -> Matches r2 s2 -> Matches (Cat r1 r2) (s1 +:+ s2)
  | MAltL r1 r2 s : Matches r1 s -> Matches (Alt r1 r2) s
  | MAltR r1 r2 s : Matches r2 s -> Matches (Alt r1 r2) s
  | MStar0 r : Matches (Star r) EmptyString
  | MStarS r s1 s2 :
      Matches r s1 -> Matches (Star r) s2 -> Matches (Star r) (s1 +:+ s2).

End Re.

(** ** [uuid.UUID] *)

Module Uuid.

(** A UUID is its 128-bit integer value. *)
Definition UUID : Type := N.

(** [uuid.UUID(hex)] for a [str] argument. *)
Definition of_hex (hex : string) : py UUID :=
  let hex := PyStr.remove_all "uuid:" (PyStr.remove_all "urn:" hex) in
  let hex := PyStr.remove_all "-" (PyStr.strip_chars "{}" hex) in
  if negb (String.length hex =? 32)%nat
  then Raise (ValueError "badly formed hexadecimal UUID string")
  else match PyStr.int16 hex with
       | None => Raise (ValueError ("invalid literal for int() with base 16: "
                                      +:+ PyVal.repr_str hex))
       | Some i =>
           if (0 <=? i) && (i <? 2 ^ 128)
           then Ret (Z.to_N i)
           else Raise (ValueError "int is out of range (need a 128-bit value)")
       end.

(** [uuid.UUID(v)] for any object [v] passed as [hex]. *)
Definition of_pyval (v : pyval) : py UUID :=
  match v with
  | PStr s => of_hex s
  | PNone => Raise (TypeError
               "one of the hex, bytes, bytes_le, fields, or int arguments must be given")
  | _ => Raise (AttributeError ("'" +:+ PyVal.type_name v
                                  +:+ "' object has no attribute 'replace'"))
  end.

(** The [n] lowest hexadecimal digits of [v], most significant first. *)
Fixpoint hex_digits (n : nat) (v : N) : string :=
  match n with
  | O => EmptyString
  | S n' => hex_digits n' (v / 16)%N
            +:+ String (PyVal.hex_digit (N.to_nat (v mod 16)%N)) EmptyString
  end.

(** [str(u)]: 8-4-4-4-12 lower-case hexadecimal digits. *)
Definition to_str (u : UUID) : string :=
  let h := hex_digits 32 u in
  String.substring 0 8 h +:+ "-" +:+ String.substring 8 4 h +:+ "-"
    +:+ String.substring 12 4 h +:+ "-" +:+ String.substring 16 4 h +:+ "-"
    +:+ String.substring 20 12 h.

Definition nil_text : string := "00000000-0000-0000-0000-000000000000".

End Uuid.

(** ** config/settings.py *)

Record Settings : Type := {
  DEFAULT_TASK_TIMEOUT_SEC : Z;
  DEFAULT_SUBPROCESS_TIMEOUT_SEC : Z;
  DEFAULT_SUBPROCESS_MAX_OUTPUT_BYTES : Z;
  ENABLE_SECURITY_ADVANCED : bool;
  DNS_RESOLVE_TIMEOUT_SEC : Z;
  MAX_PARALLEL_PLUGINS : Z
}.

(** The values of [Settings()] when the environment overrides nothing. *)
Definition default_settings : Settings := {|
  DEFAULT_TASK_TIMEOUT_SEC := 75;
  DEFAULT_SUBPROCESS_TIMEOUT_SEC := 30;
  DEFAULT_SUBPROCESS_MAX_OUTPUT_BYTES := 1000000;
  ENABLE_SECURITY_ADVANCED := false;
  DNS_RESOLVE_TIMEOUT_SEC := 5;
  MAX_PARALLEL_PLUGINS := 4
|}.

(** ** core/parsers.py *)

Module Parsers.

(** The fields of the two models carry a prefix ([vl_], [vm_]): both
    have an [id], a [host], a [port], ... *)
Record ParsedVLESS : Type := {
  vl_id : Uuid.UUID;
  vl_host : string;
  vl_port : Z;
  vl_sni : option string;
  vl_security : option string;
  vl_network : option string;
  vl_path : option string;
  vl_alpn : option string;
  vl_flow : option string;
  vl_name : option string;
  vl_params : list (string * string)
}.

Record ParsedVMESS : Type := {
  vm_id : Uuid.UUID;
  vm_host : string;
  vm_port : Z;
  vm_aid : option Z;
  vm_net : option string;
  vm_type_field : option string;
  vm_tls : option string;
  vm_sni : option string;
  vm_host_header : option string;
  vm_path : option string;
  vm_name : option string;
  vm_raw : list (string * pyval)
}.

Inductive ParsedConfig : Type :=
  | VLESS (c : ParsedVLESS)
  | VMESS (c : ParsedVMESS).

Record ParseResult : Type := {
  config : ParsedConfig;
  warnings : list string
}.

(** What the parser reads of [yarl.URL(uri)]. *)
Record Url : Type := {
  scheme : string;
  user : option string;
  host : option string;
  port : option Z;
  query : list (string * string);
  fragment : string
}.

(** [(25[0-5]|2[0-4]\d|1?\d?\d)] *)
Definition octet : Re.re :=
  Re.Alt (Re.Cat (Re.chr "2") (Re.Cat (Re.chr "5") (Re.range "0" "5")))
    (Re.Alt (Re.Cat (Re.chr "2") (Re.Cat (Re.range "0" "4") Re.digit))
       (Re.Cat (Re.opt (Re.chr "1")) (Re.Cat (Re.opt Re.digit) Re.digit))).

(** [^(25[0-5]|2[0-4]\d|1?\d?\d)(\.(25[0-5]|2[0-4]\d|1?\d?\d)){3}$] *)
Definition _IPV4_RE : Re.re :=
  Re.Cat octet (Re.times 3 (Re.Cat (Re.chr ".") octet)).

(** The class [[0-9a-fA-F:]] *)
Definition hexcolon (c : ascii) : bool :=
  let n := nat_of_ascii c in
  ((48 <=? n) && (n <=? 57) || (97 <=? n) && (n <=? 102)
   || (65 <=? n) && (n <=? 70) || (n =? 58))%nat.

(** [^\[?[0-9a-fA-F:]+\]?$] *)
Definition _IPV6_RE : Re.re :=
  Re.Cat (Re.opt (Re.chr "["))
    (Re.Cat (Re.plus (Re.Cls hexcolon)) (Re.opt (Re.chr "]"))).

(** [a or b] on two optional strings ([None] and the empty string are
    falsy). *)
Definition str_or (a b : option string) : option string :=
  match a with
  | Some s => if String.eqb s EmptyString then b else a
  | None => b
  end.

(** [not v] for an optional string. *)
Definition falsy (a : option string) : bool :=
  match a with
  | Some s => String.eqb s EmptyString
  | None => true
  end.

(** [(v or empty).lower() in {empty, "none", "insecure"}] *)
Definition insecure_mode (a : option string) : bool :=
  let s := PyStr.lower (default EmptyString (str_or a (Some EmptyString))) in
  String.eqb s EmptyString || String.eqb s "none" || String.eqb s "insecure".

(** [dict(url.query)]: the keys in order of first occurrence, each with
    its first value. *)
Fixpoint dict_of_query (seen : list string) (q : list (string * string))
  : list (string * string) :=
  match q with
  | [] => []
  | (k, v) :: q' =>
      if bool_decide (k ∈ seen) then dict_of_query seen q'
      else (k, v) :: dict_of_query (k :: seen) q'
  end.

Fixpoint sget (k : string) (d : list (string * string)) : option string :=
  match d with
  | [] => None
  | (k', v) :: d' => if String.eqb k k' then Some v else sget k d'
  end.

Definition vless_known_keys : list string :=
  ["sni"; "serverName"; "security"; "type"; "network"; "path"; "alpn"; "flow"].

Definition _b64pad (s : string) : string :=
  s +:+ PyStr.repeat "=" ((4 - String.length s mod 4) mod 4)%nat.

Section WithLibraries.

(** [idna.encode(host, uts46=True)] returns ([true]) or raises. *)
Variable idna_encodes : string -> bool.
(** [yarl.URL(uri)] *)
Variable yarl_URL : string -> py Url.
(** [json.loads(base64.urlsafe_b64decode(s).decode("utf-8",
    errors="replace"))], [None] when one of the two calls raises. *)
Variable b64_json_loads : string -> option pyval.

Definition _validate_hostname (host : string) : py string :=
  let host := PyStr.strip host in
  if Re.match_anchored _IPV4_RE host || Re.match_anchored _IPV6_RE host
  then Ret host
  else if idna_encodes host
       then (* the test on _DOMAIN_RE guards a bare [pass] *)
            Ret host
       else Raise (ValueError ("invalid hostname: " +:+ host)).

(** The call [int(text)].  Every caller in this module catches the
    [ValueError] and drops it; its message is cut to the fixed part. *)
Definition py_int (text : string) : py Z :=
  match PyStr.int10 text with
  | Some z => Ret z
  | None => Raise (ValueError "invalid literal for int() with base 10")
  end.

Definition _validate_port (port : pyval) : py Z :=
  (p <- reraise_as (text <- PyVal.to_str port ;; py_int (PyStr.strip text))
                   (ValueError "port must be int") ;;
   if negb ((1 <=? p) && (p <=? 65535))
   then Raise (ValueError "port out of range")
   else Ret p)%py.

Definition parse_vless (uri : string) : py ParseResult :=
  (url <- yarl_URL uri ;;
   if negb (String.eqb (PyStr.lower (scheme url)) "vless")
   then Raise (ValueError "not a vless uri")
   else
     user_id <- reraise_as
                  (Uuid.of_hex (default EmptyString (str_or (user url) (Some EmptyString))))
                  (ValueError "invalid vless uuid") ;;
     host <- _validate_hostname
               (default EmptyString (str_or (host url) (Some EmptyString))) ;;
     port <- _validate_port (PInt (default 0 (port url))) ;;
     let q := dict_of_query [] (query url) in
     let sni := str_or (sget "sni" q) (sget "serverName" q) in
     let security := sget "security" q in
     let network := str_or (sget "type" q) (sget "network" q) in
     let path := sget "path" q in
     let alpn := sget "alpn" q in
     let flow := sget "flow" q in
     let name := if String.eqb (fragment url) EmptyString
                 then None else Some (fragment url) in
     let params :=
       filter (fun kv => fst kv ∉ vless_known_keys) q in
     let model := {|
       vl_id := user_id; vl_host := host; vl_port := port; vl_sni := sni;
       vl_security := security; vl_network := network; vl_path := path;
       vl_alpn := alpn; vl_flow := flow; vl_name := name;
       vl_params := params |} in
     let warnings :=
       ((if insecure_mode security
        then ["VLESS without TLS/REALITY; may leak metadata."] else [])
       ++ (if bool_decide (network = Some "ws") && falsy path
           then ["WebSocket selected but path is empty."] else []))%list in
     Ret {| config := VLESS model; warnings := warnings |})%py.

(** [(data.get(k) or empty).strip() or None] *)
Definition text_field (data : list (string * pyval)) (k : string)
  : py (option string) :=
  let v := match PyVal.assoc k data with
           | Some v => if PyVal.truthy v then v else PStr EmptyString
           | None => PStr EmptyString
           end in
  match v with
  | PStr s =>
      let s' := PyStr.strip s in
      Ret (if String.eqb s' EmptyString then None else Some s')
  | _ => Raise (AttributeError ("'" +:+ PyVal.type_name v
                                  +:+ "' object has no attribute 'strip'"))
  end.

(** [data.get(k, d)] *)
Definition get_default (data : list (string * pyval)) (k : string) (d : pyval)
  : pyval :=
  default d (PyVal.assoc k data).

Definition aid_warning : string := "vmess 'aid' is not numeric; ignored.".

(** The body of the [try] block that reads [aid]. *)
Definition read_aid (data : list (string * pyval)) : py (option Z) :=
  match PyVal.assoc "aid" data with
  | Some v =>
      (text <- PyVal.to_str v ;;
       if String.eqb (PyStr.strip text) EmptyString then Ret None
       else (text' <- PyVal.to_str v ;;
             a <- py_int (PyStr.strip text') ;;
             Ret (Some a)))%py
  | None => Ret None
  end.

(** The [try] block that reads [aid], with its handler: the value and
    the warnings it adds. *)
Definition parse_aid (data : list (string * pyval))
  : py (option Z * list string) :=
  catch (aid <- read_aid data ;; Ret (aid, []))%py
        (fun _ => Ret (None, [aid_warning])).

Definition parse_vmess (uri : string) : py ParseResult :=
  if negb (PyStr.startswith (PyStr.lower uri) "vmess://")
  then Raise (ValueError "not a vmess uri")
  else
    let payload := PyStr.drop (String.length "vmess://") uri in
    match b64_json_loads (_b64pad payload) with
    | None => Raise (ValueError "invalid vmess base64/json")
    | Some (PDict data) =>
        (user_id <- reraise_as
                      (text <- PyVal.to_str (get_default data "id" (PStr EmptyString)) ;;
                       Uuid.of_hex (PyStr.strip text))
                      (ValueError "invalid vmess uuid") ;;
         add <- PyVal.to_str (get_default data "add" (PStr EmptyString)) ;;
         host <- _validate_hostname (PyStr.strip add) ;;
         port <- _validate_port (get_default data "port" (PInt 0)) ;;
         aid_read <- parse_aid data ;;
         let (aid, w_aid) := aid_read in
         net <- text_field data "net" ;;
         type_field <- text_field data "type" ;;
         tls <- text_field data "tls" ;;
         sni <- text_field data "sni" ;;
         host_header <- text_field data "host" ;;
         path <- text_field data "path" ;;
         name <- text_field data "ps" ;;
         let model := {|
           vm_id := user_id; vm_host := host; vm_port := port; vm_aid := aid;
           vm_net := net; vm_type_field := type_field; vm_tls := tls;
           vm_sni := sni; vm_host_header := host_header; vm_path := path;
           vm_name := name; vm_raw := data |} in
         let warnings :=
           (w_aid
            ++ (if insecure_mode tls
                then ["VMESS without TLS; traffic may be observable."] else [])
            ++ (if bool_decide (net = Some "ws") && falsy path
                then ["WebSocket selected but path is empty."] else []))%list in
         Ret {| config := VMESS model; warnings := warnings |})%py
    | Some _ =>
        (* [data.get] fails inside the [try] that reads the id *)
        Raise (ValueError "invalid vmess uuid")
    end.

Definition parse_config (raw : string) : py ParseResult :=
  let raw := PyStr.strip raw in
  if String.eqb raw EmptyString
  then Raise (ValueError "empty config")
  else if PyStr.startswith (PyStr.lower raw) "vless://"
       then parse_vless raw
       else if PyStr.startswith (PyStr.lower raw) "vmess://"
            then parse_vmess raw
            else Raise (ValueError
                   "unsupported config type (expect vless:// or vmess://)").

End WithLibraries.

End Parsers.

(** ** Effects: a trace of observable steps and an exception *)

Module Io.

Definition io (E A : Type) : Type := (list E * py A)%type.

Definition ret {E A} (a : A) : io E A := ([], Ret a).
Definition emit {E} (e : E) : io E unit := ([e], Ret tt).
Definition lift {E A} (m : py A) : io E A := ([], m).
(** A coroutine that waits for something that is never granted. *)
Definition never {E A} : io E A := ([], Hang).
Definition bind {E A B} (m : io E A) (f : A -> io E B) : io E B :=
  match m with
  | (t, Ret a) => let (t', r) := f a in ((t ++ t')%list, r)
  | (t, Raise e) => (t, Raise e)
  | (t, Hang) => (t, Hang)
  end.

(** [try: x = m / except Exception as e: handler(e)], followed by
    [k x] when [m] did not raise. *)
Definition try_except {E A B} (m : io E A) (handler : exn -> io E B)
           (k : A -> io E B) : io E B :=
  match m with
  | (t, Ret a) => let (t', r) := k a in ((t ++ t')%list, r)
  | (t, Raise e) => let (t', r) := handler e in ((t ++ t')%list, r)
  | (t, Hang) => (t, Hang)
  end.

Definition trace {E A} (m : io E A) : list E := fst m.
Definition outcome {E A} (m : io E A) : py A := snd m.

End Io.

Declare Scope io_scope.
Delimit Scope io_scope with io.
Notation "x <-- m ;; k" := (Io.bind m (fun x => k))
  (at level 100, m at next level, right associativity) : io_scope.

(** ** plugins/base.py *)

Module Plugins.

Definition KIND_PERFORMANCE : string := "performance".
Definition KIND_STABILITY : string := "stability".
Definition KIND_COMPLIANCE : string := "compliance".
Definition KIND_SECURITY_BASIC : string := "security_basic".
Definition KIND_SECURITY_ADV : string := "security_adv".

Record PluginContext : Type := {
  request_id : string;
  config : Parsers.ParsedConfig;
  log_extra : list (string * pyval);
  timeout_sec : Z
}.

Record PluginResult : Type := {
  ok : bool;
  kind : string;
  metrics : list (string * pyval);
  warnings : list string;
  error : option string
}.

(** How [asyncio.wait_for(plugin.run(ctx), timeout=ctx.timeout_sec)]
    ends: the plugin returns in time, the budget runs out, or the
    plugin raises. *)
Inductive RunOutcome : Type :=
  | Completed (r : PluginResult)
  | TimedOut
  | Failed (e : exn).

(** A plugin class: instances carry no state of their own, so a class
    is its [run] method. *)
Record TestPlugin : Type := {
  run : PluginContext -> RunOutcome
}.

(** [_REGISTRY] *)
Abbreviation Registry := (gmap string TestPlugin).

(** The decorator [register_plugin(kind)] applied to a class. *)
Definition register_plugin (kind : string) (cls : TestPlugin) (reg : Registry)
  : py Registry :=
  match reg !! kind with
  | Some _ => Raise (RuntimeError ("plugin kind already registered: " +:+ kind))
  | None => Ret (<[kind := cls]> reg)
  end.

(** [sorted(_REGISTRY.keys())] *)
Definition available_kinds (reg : Registry) : list string :=
  merge_sort String.le (elements (dom reg)).

Definition make_plugin (reg : Registry) (kind : string) : py TestPlugin :=
  match reg !! kind with
  | None => Raise (KeyError ("no plugin registered for kind=" +:+ kind))
  | Some factory => Ret factory
  end.

End Plugins.

(** ** core/runner.py *)

Module Runner.
Import Plugins.

Record TaskRequest : Type := {
  task_id : Uuid.UUID;
  user_telegram_id : Z;
  username : option string;
  config_raw : string;
  tests : list string;
  consent_required : bool;
  consent_granted : bool
}.

(** The fields of the response carry the prefix [r_]: the request has a
    [task_id] too. *)
Record TaskResponse : Type := {
  r_task_id : Uuid.UUID;
  r_ok : bool;
  r_results : gmap string (gmap string pyval);
  r_warnings : list string;
  r_errors : list string
}.

(** *** Validation of the request model

    [TaskRequest.model_validate(payload)] as pydantic runs it on a
    dict of JSON-like values: required fields, defaults, the coercions
    of its default (lax) mode, and [min_length=1] on [tests].  Keys
    the model does not declare are ignored. *)

Record field_error : Type := {
  loc : string;
  msg : string
}.

Definition validated (A : Type) : Type := (list field_error + A)%type.

Definition errs {A} (r : validated A) : list field_error :=
  match r with
  | inl e => e
  | inr _ => []
  end.

(** [n] hexadecimal digits *)
Definition hexes (n : nat) : Re.re :=
  Re.times n (Re.Cls (fun c => bool_decide (is_Some (PyStr.hex_val c)))).
Definition dash : Re.re := Re.chr "-".
(** The 8-4-4-4-12 form *)
Definition hyphenated : Re.re :=
  Re.Cat (hexes 8) (Re.Cat dash (Re.Cat (hexes 4) (Re.Cat dash (Re.Cat (hexes 4)
    (Re.Cat dash (Re.Cat (hexes 4) (Re.Cat dash (hexes 12)))))))).
(** The pattern that matches the text [s] only *)
Fixpoint lit (s : string) : Re.re :=
  match s with
  | EmptyString => Re.Eps
  | String c s' => Re.Cat (Re.chr c) (lit s')
  end.
(** The textual forms a UUID field accepts: 32 digits, hyphenated,
    URN, braced. *)
Definition uuid_text : Re.re :=
  Re.Alt (hexes 32)
    (Re.Alt hyphenated
       (Re.Alt (Re.Cat (lit "urn:uuid:") hyphenated)
          (Re.Cat (Re.chr "{") (Re.Cat hyphenated (Re.chr "}"))))).

(** [uuid.UUID]: a string in one of the forms above. *)
Definition as_uuid (v : pyval) : option Uuid.UUID :=
  match v with
  | PStr s =>
      if Re.fullmatch uuid_text s
      then match Uuid.of_hex s with Ret u => Some u | _ => None end
      else None
  | _ => None
  end.

(** [int]: an integer, a boolean, or a string that holds an integer
    literal. *)
Definition as_int (v : pyval) : option Z :=
  match v with
  | PInt z => Some z
  | PBool b => Some (if b then 1 else 0)
  | PStr s => PyStr.int10 s
  | _ => None
  end.

(** [str]: a string, nothing else. *)
Definition as_str (v : pyval) : option string :=
  match v with
  | PStr s => Some s
  | _ => None
  end.

Definition true_words : list string := ["1"; "on"; "t"; "true"; "y"; "yes"].
Definition false_words : list string := ["0"; "off"; "f"; "false"; "n"; "no"].

(** [bool]: a boolean, 0 or 1, or one of the words above in any case. *)
Definition as_bool (v : pyval) : option bool :=
  match v with
  | PBool b => Some b
  | PInt z => if z =? 0 then Some false else if z =? 1 then Some true else None
  | PStr s =>
      if bool_decide (PyStr.lower s ∈ true_words) then Some true
      else if bool_decide (PyStr.lower s ∈ false_words) then Some false
      else None
  | _ => None
  end.

(** [list[str]]: a list whose items are all strings. *)
Definition as_str_list (v : pyval) : option (list string) :=
  match v with
  | PList l => mapM as_str l
  | _ => None
  end.

(** A field without default. *)
Definition required {A} (payload : gmap string pyval) (name : string)
           (conv : pyval -> option A) (expect : string) : validated A :=
  match payload !! name with
  | None => inl [{| loc := name; msg := "Field required" |}]
  | Some v =>
      match conv v with
      | Some a => inr a
      | None => inl [{| loc := name; msg := "Input should be a valid " +:+ expect |}]
      end
  end.

(** A field with the default [dflt]. *)
Definition optional {A} (payload : gmap string pyval) (name : string)
           (conv : pyval -> option A) (expect : string) (dflt : A) : validated A :=
  match payload !! name with
  | None => inr dflt
  | Some v =>
      match conv v with
      | Some a => inr a
      | None => inl [{| loc := name; msg := "Input should be a valid " +:+ expect |}]
      end
  end.

(** [str | None] *)
Definition as_opt_str (v : pyval) : option (option string) :=
  match v with
  | PNone => Some None
  | PStr s => Some (Some s)
  | _ => None
  end.

(** [Field(min_length=1)] on a validated list *)
Definition min_length_1 (name : string) (r : validated (list string))
  : validated (list string) :=
  match r with
  | inr [] => inl [{| loc := name;
                      msg := "List should have at least 1 item after validation, not 0" |}]
  | _ => r
  end.

Definition model_validate (payload : gmap string pyval) : validated TaskRequest :=
  let f_task_id := required payload "task_id" as_uuid "UUID" in
  let f_user := required payload "user_telegram_id" as_int "integer" in
  let f_username := optional payload "username" as_opt_str "string" None in
  let f_config := required payload "config_raw" as_str "string" in
  let f_tests := min_length_1 "tests" (required payload "tests" as_str_list "list") in
  let f_creq := optional payload "consent_required" as_bool "boolean" false in
  let f_cgr := optional payload "consent_granted" as_bool "boolean" false in
  match f_task_id, f_user, f_username, f_config, f_tests, f_creq, f_cgr with
  | inr tid, inr uid, inr un, inr raw, inr ts, inr cr, inr cg =>
      inr {| task_id := tid; user_telegram_id := uid; username := un;
             config_raw := raw; tests := ts;
             consent_required := cr; consent_granted := cg |}
  | _, _, _, _, _, _, _ =>
      inl (errs f_task_id ++ errs f_user ++ errs f_username ++ errs f_config
           ++ errs f_tests ++ errs f_creq ++ errs f_cgr)%list
  end.

(** [str(ve)]: the count line, then for every error its location and
    message (the echo of the offending input that pydantic adds to a
    message is left out). *)
Definition ve_str (ve : list field_error) : string :=
  pretty (List.length ve) +:+ " validation error"
    +:+ (if (List.length ve =? 1)%nat then EmptyString else "s")
    +:+ " for TaskRequest"
    +:+ String.concat EmptyString
          (map (fun e => String "010" (loc e) +:+ String "010" ("  " +:+ msg e)) ve).

(** *** Observable steps

    The orchestrator's calls into the parser and into plugin bodies
    are recorded in a trace, so that statements of the form "no
    plugin runs" can be made about the function itself. *)

Inductive event : Type :=
  | EvParse (raw : string)
  | EvRun (kind : string).

Abbreviation io := (Io.io event).

(** [asyncio.gather] over the calls [f k] for [k] in [ks]: the results
    in the order of [ks]; the first exception, if any, is raised, and
    a call that never completes keeps the whole from completing. *)
Fixpoint gather {A B} (f : A -> io B) (ks : list A) : io (list B) :=
  match ks with
  | [] => Io.ret []
  | k :: ks' =>
      (x <-- f k ;;
       xs <-- gather f ks' ;;
       Io.ret (x :: xs))%io
  end.

(** [list(dict.fromkeys(tests))]: every key is inserted in turn, and
    inserting a key that is present leaves the order as it is. *)
Definition fromkeys_step (keys : list string) (k : string) : list string :=
  if bool_decide (k ∈ keys) then keys else (keys ++ [k])%list.
Definition dedupe (l : list string) : list string :=
  fold_left fromkeys_step l [].

(** The warning of the consent gate. *)
Definition skip_warning : string :=
  "advanced security tests skipped (consent disabled or not granted).".

(** The dict stored in [results_map] for one plugin result. *)
Definition result_entry (res : PluginResult) : gmap string pyval :=
  list_to_map
    [("ok", PBool (ok res));
     ("metrics", PDict (metrics res));
     ("warnings", PList (PStr <$> Plugins.warnings res));
     ("error", match error res with Some e => PStr e | None => PNone end)].

(** The aggregation loop over [pairs]. *)
Definition aggregate_step (acc : gmap string (gmap string pyval) * bool)
           (p : string * PluginResult) : gmap string (gmap string pyval) * bool :=
  let '(results_map, any_ok) := acc in
  let '(kind, res) := p in
  (<[kind := result_entry res]> results_map, any_ok || ok res).
Definition aggregate (pairs : list (string * PluginResult))
  : gmap string (gmap string pyval) * bool :=
  fold_left aggregate_step pairs (∅, false).

Section WithEnvironment.

Variable idna_encodes : string -> bool.
Variable yarl_URL : string -> py Parsers.Url.
Variable b64_json_loads : string -> option pyval.
Variable settings : Settings.
Variable _REGISTRY : Registry.

Definition _run_single (kind : string) (ctx : PluginContext)
  : io (string * PluginResult) :=
  (plugin <-- Io.lift (make_plugin _REGISTRY kind) ;;
   _ <-- Io.emit (EvRun kind) ;;
   match run plugin ctx with
   | Completed result => Io.ret (kind, result)
   | TimedOut =>
       Io.ret (kind, {| ok := false; kind := kind; metrics := [];
                        warnings := []; error := Some "timeout" |})
   | Failed e =>
       Io.ret (kind, {| ok := false; kind := kind; metrics := [];
                        warnings := []; error := Some (exn_str e) |})
   end)%io.

Definition _normalize_config (raw : string)
  : io (Parsers.ParsedConfig * list string) :=
  (_ <-- Io.emit (EvParse raw) ;;
   parsed <-- Io.lift (Parsers.parse_config idna_encodes yarl_URL b64_json_loads raw) ;;
   Io.ret (Parsers.config parsed, Parsers.warnings parsed))%io.

(** [asyncio.Semaphore(value)]: the number of free slots. *)
Definition Semaphore (value : Z) : py Z :=
  if value <? 0 then Raise (ValueError "Semaphore initial value must be >= 0")
  else Ret value.

(** The inner coroutine [_guarded]: [async with sem] waits for a free
    slot.  All the calls share [sem], and a call that holds a slot
    gives it back when [_run_single] is over, so with one slot or more
    every call gets its turn; with none, no call ever does. *)
Definition _guarded (sem : Z) (ctx : PluginContext) (kind : string)
  : io (string * PluginResult) :=
  if 0 <? sem then _run_single kind ctx else Io.never.

(** The gating loop: one iteration. *)
Definition gate_step (req : TaskRequest) (acc : list string * list string)
           (k : string) : list string * list string :=
  let '(effective_tests, warnings) := acc in
  if String.eqb k KIND_SECURITY_ADV
     && (negb (ENABLE_SECURITY_ADVANCED settings)
         || negb (consent_required req && consent_granted req))
  then (effective_tests, (warnings ++ [skip_warning])%list)
  else ((effective_tests ++ [k])%list, warnings).

Definition consent_gate (req : TaskRequest) (requested warnings : list string)
  : list string * list string :=
  fold_left (gate_step req) requested ([], warnings).

(** The check that the kinds exist. *)
Definition drop_unknown (acc : list string * list string)
  : list string * list string :=
  let '(effective_tests, warnings) := acc in
  let unknown :=
    filter (fun k => k ∉ available_kinds _REGISTRY) effective_tests in
  match unknown with
  | [] => (effective_tests, warnings)
  | _ =>
      (filter (fun k => k ∉ unknown) effective_tests,
       (warnings ++ ["unknown/unsupported test kinds skipped: "
                       +:+ PyVal.repr (PList (PStr <$> unknown))])%list)
  end.

(** The kinds that survive de-duplication, the consent gate and the
    registry check, with the warnings accumulated on the way. *)
Definition effective (req : TaskRequest) (parse_warnings : list string)
  : list string * list string :=
  drop_unknown (consent_gate req (dedupe (tests req)) parse_warnings).

(** The [PluginContext] of a task. *)
Definition build_context (req : TaskRequest) (cfg : Parsers.ParsedConfig)
  : PluginContext :=
  {| request_id := Uuid.to_str (task_id req);
     config := cfg;
     log_extra :=
       [("telegram_id", PInt (user_telegram_id req));
        ("username", match username req with
                     | Some u => PStr u
                     | None => PNone
                     end)];
     timeout_sec := DEFAULT_TASK_TIMEOUT_SEC settings |}.

Definition execute_request_async (payload : gmap string pyval) : io TaskResponse :=
  match model_validate payload with
  | inl ve =>
      (tid <-- Io.lift (Uuid.of_pyval
                      (default (PStr Uuid.nil_text) (payload !! "task_id"))) ;;
       Io.ret {| r_task_id := tid; r_ok := false; r_results := ∅;
                 r_warnings := [];
                 r_errors := ["validation error: " +:+ ve_str ve] |})%io
  | inr req =>
      Io.try_except (_normalize_config (config_raw req))
        (fun e =>
           Io.ret {| r_task_id := task_id req; r_ok := false; r_results := ∅;
                     r_warnings := [];
                     r_errors := ["config parse error: " +:+ exn_str e] |})
        (fun '(normalized_cfg, parse_warnings) =>
           let '(effective_tests, warnings) := effective req parse_warnings in
           match effective_tests with
           | [] =>
               Io.ret {| r_task_id := task_id req; r_ok := false;
                         r_results := ∅; r_warnings := warnings;
                         r_errors := ["no effective tests to run"] |}
           | _ =>
               let ctx := build_context req normalized_cfg in
               (sem <-- Io.lift (Semaphore (MAX_PARALLEL_PLUGINS settings)) ;;
                pairs <-- gather (_guarded sem ctx) effective_tests ;;
                let '(results_map, any_ok) := aggregate pairs in
                Io.ret {| r_task_id := task_id req; r_ok := any_ok;
                          r_results := results_map; r_warnings := warnings;
                          r_errors := [] |})%io
           end)
  end.

End WithEnvironment.

End Runner.

(** ** testsuite/common.py *)

Module Common.

Abbreviation bytes := (list Byte.byte).

Record CmdResult : Type := {
  exit_code : Z;
  stdout : bytes;
  stderr : bytes;
  timeout : bool
}.

(** The names bound in the module's namespace once it is imported: its
    imports, in order, and its own definitions. *)
Definition module_globals : list string :=
  ["annotations"; "asyncio"; "os"; "platform"; "resource"; "shlex"; "signal";
   "dataclass"; "Iterable"; "Sequence"; "get_settings"; "settings";
   "CmdResult"; "_set_resource_limits"; "run_cmd"].

(** The built-in names the module refers to. *)
Definition builtins : list string :=
  ["isinstance"; "str"; "len"; "Exception"; "ProcessLookupError"].

(** Evaluation of a global name. *)
Definition load_global (name : string) : py unit :=
  if bool_decide (name ∈ module_globals) || bool_decide (name ∈ builtins)
  then Ret tt
  else Raise (NameError ("name '" +:+ name +:+ "' is not defined")).

(** How [asyncio.wait_for(proc.communicate(), timeout)] ends: both
    streams are read to their end and the child has exited, or the
    timeout expires first. *)
Inductive Communicate : Type :=
  | Exited (out err : bytes) (returncode : option Z)
  | Expired.

(** A spawned child, as far as the runner observes it: the outcome of
    waiting for it with a given timeout. *)
Record Process : Type := {
  communicate : Z -> Communicate
}.

(** What the runner does to the system: it spawns a child, and it sends
    a child the kill signal. *)
Inductive event : Type :=
  | EvSpawn (argv : list string) (cwd : option string) (env : gmap string string)
  | EvKill.

Abbreviation io := (Io.io event).

(** [b[:n]] *)
Definition slice_to (n : Z) (b : bytes) : bytes :=
  if 0 <=? n then take (Z.to_nat n) b
  else take (Z.to_nat (Z.of_nat (List.length b) + n)) b.

(** [x or 0] on a return code *)
Definition or_zero (rc : option Z) : Z := default 0 rc.

Definition timeout_text : bytes := list_byte_of_string "timeout".

Section WithSystem.

Variable settings : Settings.
(** [os.environ] *)
Variable os_environ : gmap string string.
(** [shlex.split] *)
Variable shlex_split : string -> py (list string).
(** [asyncio.create_subprocess_exec] with both streams piped; on
    Linux the child applies [_set_resource_limits] before it loads
    its program. *)
Variable create_subprocess_exec :
  list string -> option string -> gmap string string -> py Process.

Definition run_cmd (argv : list string + string)
           (timeout_sec : option Z) (cwd : option string)
           (env : option (gmap string string))
           (max_output_bytes : option Z) : io CmdResult :=
  (argv <-- match argv with
            | inr text => _ <-- Io.lift (load_global "shlex") ;;
                          Io.lift (shlex_split text)
            | inl v => Io.ret v
            end ;;
   timeout_sec <-- match timeout_sec with
                   | None => _ <-- Io.lift (load_global "settings") ;;
                             Io.ret (DEFAULT_SUBPROCESS_TIMEOUT_SEC settings)
                   | Some t => Io.ret t
                   end ;;
   max_output_bytes <-- match max_output_bytes with
                        | None => _ <-- Io.lift (load_global "settings") ;;
                                  Io.ret (DEFAULT_SUBPROCESS_MAX_OUTPUT_BYTES settings)
                        | Some m => Io.ret m
                        end ;;
   _ <-- Io.lift (load_global "asyncio") ;;
   _ <-- Io.lift (load_global "os") ;;
   _ <-- Io.lift (load_global "platform") ;;
   let env' := default ∅ env ∪ os_environ in
   proc <-- Io.lift (create_subprocess_exec argv cwd env') ;;
   _ <-- Io.emit (EvSpawn argv cwd env') ;;
   match communicate proc timeout_sec with
   | Exited out err returncode =>
       let out := if Z.of_nat (List.length out) >? max_output_bytes
                  then slice_to max_output_bytes out else out in
       let err := if Z.of_nat (List.length err) >? max_output_bytes
                  then slice_to max_output_bytes err else err in
       _ <-- Io.lift (load_global "CmdResult") ;;
       Io.ret {| exit_code := or_zero returncode; stdout := out;
                 stderr := err; timeout := false |}
   | Expired =>
       (* except asyncio.TimeoutError: *)
       _ <-- Io.lift (load_global "asyncio") ;;
       (* with contextlib.suppress(ProcessLookupError): *)
       _ <-- Io.lift (load_global "contextlib") ;;
       _ <-- Io.lift (load_global "ProcessLookupError") ;;
       (* proc.send_signal(signal.SIGKILL) *)
       _ <-- Io.lift (load_global "signal") ;;
       _ <-- Io.emit EvKill ;;
       _ <-- Io.lift (load_global "CmdResult") ;;
       Io.ret {| exit_code := 137; stdout := []; stderr := timeout_text;
                 timeout := true |}
   end)%io.

End WithSystem.

End Common.

(** * Vocabulary of the statements *)

Module Spec.
Import Plugins Runner.

(** ** Hosts *)

(** A host made of hexadecimal digits and colons, with an optional
    opening and an optional closing bracket. *)
Definition ipv6_like (h : string) : Prop :=
  exists ob body cb,
    h = ob +:+ body +:+ cb
    /\ (ob = EmptyString \/ ob = "[")
    /\ (cb = EmptyString \/ cb = "]")
    /\ body <> EmptyString
    /\ Forall (fun c => Parsers.hexcolon c = true) (list_ascii_of_string body).

(** No character of [s] is white space. *)
Definition no_space (s : string) : Prop :=
  Forall (fun c => PyStr.is_space c = false) (list_ascii_of_string s).

(** ** Requests and responses *)

(** The first occurrences of the elements of [l], in the order of [l]:
    position [i] is kept when no earlier position holds the same
    element. *)
Definition first_occurrences (l : list string) : list string :=
  omap (fun i => match l !! i with
                 | Some x => if bool_decide (x ∈ take i l) then None else Some x
                 | None => None
                 end)
       (seq 0 (List.length l)).

(** A request that differs from [req] in its list of tests only. *)
Definition with_tests (req : TaskRequest) (ts : list string) : TaskRequest :=
  {| task_id := task_id req; user_telegram_id := user_telegram_id req;
     username := username req; config_raw := config_raw req; tests := ts;
     consent_required := consent_required req;
     consent_granted := consent_granted req |}.

(** The condition under which [security_adv] may run. *)
Definition allowed (settings : Settings) (req : TaskRequest) : bool :=
  ENABLE_SECURITY_ADVANCED settings && consent_required req && consent_granted req.

(** The fields of one kind's outcome in [results]. *)
Definition entry_keys : gset string :=
  list_to_set ["ok"; "metrics"; "warnings"; "error"].

(** The success flag that [results] records for kind [k]. *)
Definition success_flag (resp : TaskResponse) (k : string) : bool :=
  match r_results resp !! k with
  | Some e => match e !! "ok" with
              | Some (PBool b) => b
              | _ => false
              end
  | None => false
  end.

(** The result that [_run_single] hands over for a run that ended as
    [o]: the plugin's own result, or a failed result that names the
    timeout or the exception. *)
Definition reported (kind : string) (o : RunOutcome) : PluginResult :=
  match o with
  | Completed result => result
  | TimedOut => {| ok := false; kind := kind; metrics := [];
                   warnings := []; error := Some "timeout" |}
  | Failed e => {| ok := false; kind := kind; metrics := [];
                   warnings := []; error := Some (exn_str e) |}
  end.

(** The result of kind [k]: what the plugin registered under [k] does
    with [ctx], as reported. *)
Definition result_of (registry : Registry) (ctx : PluginContext) (k : string)
  : option PluginResult :=
  (fun plugin => reported k (run plugin ctx)) <$> registry !! k.

(** Kind [k] has a plugin, and its result is a success. *)
Definition passed (registry : Registry) (ctx : PluginContext) (k : string) : bool :=
  match result_of registry ctx k with
  | Some res => ok res
  | None => false
  end.

(** The entry [e] of [results] holds the four fields of [res], and
    nothing else. *)
Definition records (e : gmap string pyval) (res : PluginResult) : Prop :=
  e !! "ok" = Some (PBool (ok res))
  /\ e !! "metrics" = Some (PDict (metrics res))
  /\ e !! "warnings" = Some (PList (PStr <$> Plugins.warnings res))
  /\ e !! "error" = Some (match error res with
                          | Some text => PStr text
                          | None => PNone
                          end)
  /\ dom e = entry_keys.

(** The response of a request that failed validation. *)
Definition validation_failure (tid : Uuid.UUID) (ve : list field_error)
  : TaskResponse :=
  {| r_task_id := tid; r_ok := false; r_results := ∅; r_warnings := [];
     r_errors := ["validation error: " +:+ ve_str ve] |}.

(** What [_run_single] returns for kind [k]. *)
Definition single (registry : Registry) (ctx : PluginContext) (k : string)
  : string * PluginResult :=
  (k, match registry !! k with
      | Some plugin => reported k (run plugin ctx)
      | None => reported k TimedOut
      end).

(** The response of a task whose plugins ran. *)
Definition ran (settings : Settings) (registry : Registry) (req : TaskRequest)
           (cfg : Parsers.ParsedConfig) (eff w : list string) : TaskResponse :=
  let pairs := single registry (build_context settings req cfg) <$> eff in
  {| r_task_id := task_id req;
     r_ok := snd (aggregate pairs);
     r_results := fst (aggregate pairs);
     r_warnings := w;
     r_errors := [] |}.

(** The response, when there is one. *)
Definition answer (m : io TaskResponse) : option TaskResponse :=
  match Io.outcome m with
  | Ret resp => Some resp
  | _ => None
  end.

(** ** VMESS documents *)

(** The optional text fields that the parser strips. *)
Definition text_keys : list string :=
  ["net"; "type"; "tls"; "sni"; "host"; "path"; "ps"].

(** A value that [(data.get(k) or empty).strip()] can read: no value, a
    falsy value, or a [str]. *)
Definition readable (data : list (string * pyval)) (k : string) : bool :=
  match PyVal.assoc k data with
  | Some (PStr _) => true
  | Some v => negb (PyVal.truthy v)
  | None => true
  end.

(** The document has an [aid] whose text, once stripped, is not empty
    and is not an integer literal that [int()] reads. *)
Definition aid_not_numeric (data : list (string * pyval)) : bool :=
  match PyVal.assoc "aid" data with
  | Some v =>
      match PyVal.to_str v with
      | Ret text =>
          let t := PyStr.strip text in
          negb (String.eqb t EmptyString)
          && negb (bool_decide (is_Some (PyStr.int10 t)))
      | _ => false
      end
  | None => false
  end.

(** The document's id, host and port are valid. *)
Definition valid_endpoint (idna_encodes : string -> bool)
           (data : list (string * pyval)) : bool :=
  is_ret (text <- PyVal.to_str (Parsers.get_default data "id" (PStr EmptyString)) ;;
          Uuid.of_hex (PyStr.strip text))%py
  && is_ret (add <- PyVal.to_str (Parsers.get_default data "add" (PStr EmptyString)) ;;
             Parsers._validate_hostname idna_encodes (PyStr.strip add))%py
  && is_ret (Parsers._validate_port (Parsers.get_default data "port" (PInt 0))).

(** ** Commands *)

(** The argument vector that [run_cmd] executes. *)
Definition argv_of (shlex_split : string -> py (list string))
           (source : list string + string) : py (list string) :=
  match source with
  | inl v => Ret v
  | inr text => shlex_split text
  end.

End Spec.

(** ** A concrete environment

    One registry, one decoder table and one URL table, used to run the
    definitions above on explicit inputs. *)

Module Demo.
Import Plugins.

Definition sample_uuid : string := "12345678-1234-5678-1234-567812345678".

(** Base64 of a VMESS document whose [aid] is the text [abc]. *)
Definition node_b64 : string :=
  "eyJ2IjoiMiIsInBzIjoibm9kZSIsImFkZCI6ImV4YW1wbGUuY29tIiwicG9ydCI6IjQ0MyIsImlkIjoiMTIzNDU2NzgtMTIzNC01Njc4LTEyMzQtNTY3ODEyMzQ1Njc4IiwiYWlkIjoiYWJjIiwibmV0Ijoid3MiLCJwYXRoIjoiL3dzIiwidGxzIjoidGxzIn0".
Definition node_json : pyval :=
  PDict [("v", PStr "2"); ("ps", PStr "node"); ("add", PStr "example.com");
         ("port", PStr "443"); ("id", PStr sample_uuid); ("aid", PStr "abc");
         ("net", PStr "ws"); ("path", PStr "/ws"); ("tls", PStr "tls")].

(** Base64 of a VMESS document whose [net] is the number 1. *)
Definition odd_b64 : string :=
  "eyJhZGQiOiIxLjIuMy40IiwicG9ydCI6NDQzLCJpZCI6IjEyMzQ1Njc4LTEyMzQtNTY3OC0xMjM0LTU2NzgxMjM0NTY3OCIsImFpZCI6ImFiYyIsIm5ldCI6MX0".
Definition odd_json : pyval :=
  PDict [("add", PStr "1.2.3.4"); ("port", PInt 443); ("id", PStr sample_uuid);
         ("aid", PStr "abc"); ("net", PInt 1)].

Definition b64_json_loads (s : string) : option pyval :=
  if String.eqb s (Parsers._b64pad node_b64) then Some node_json
  else if String.eqb s (Parsers._b64pad odd_b64) then Some odd_json
  else None.

Definition idna_encodes (h : string) : bool := String.eqb h "example.com".

Definition vless_uri : string :=
  "vless://12345678-1234-5678-1234-567812345678@example.com:443?security=tls&type=ws&path=/ws#MyNode".

Definition yarl_URL (uri : string) : py Parsers.Url :=
  if String.eqb uri vless_uri
  then Ret {| Parsers.scheme := "vless"; Parsers.user := Some sample_uuid;
              Parsers.host := Some "example.com"; Parsers.port := Some 443;
              Parsers.query := [("security", "tls"); ("type", "ws"); ("path", "/ws")];
              Parsers.fragment := "MyNode" |}
  else Raise (ValueError "Invalid URL").

Definition passing (k : string) : TestPlugin :=
  {| run := fun _ => Completed {| ok := true; kind := k;
                                 metrics := [("latency_ms", PInt 42)];
                                 warnings := []; error := None |} |}.
Definition failing : TestPlugin :=
  {| run := fun _ => Failed (RuntimeError "probe failed") |}.
Definition hanging : TestPlugin :=
  {| run := fun _ => TimedOut |}.

Definition registry : Registry :=
  list_to_map [(KIND_PERFORMANCE, passing KIND_PERFORMANCE);
               (KIND_STABILITY, failing);
               (KIND_COMPLIANCE, hanging);
               (KIND_SECURITY_ADV, passing KIND_SECURITY_ADV)].

(** The default settings with another bound on the plugins that run at
    a time. *)
Definition with_parallel (n : Z) : Settings :=
  {| DEFAULT_TASK_TIMEOUT_SEC := 75;
     DEFAULT_SUBPROCESS_TIMEOUT_SEC := 30;
     DEFAULT_SUBPROCESS_MAX_OUTPUT_BYTES := 1000000;
     ENABLE_SECURITY_ADVANCED := false;
     DNS_RESOLVE_TIMEOUT_SEC := 5;
     MAX_PARALLEL_PLUGINS := n |}.

Definition execute (st : Settings) : gmap string pyval -> Runner.io Runner.TaskResponse :=
  Runner.execute_request_async idna_encodes yarl_URL b64_json_loads st registry.

Definition request (tid : pyval) (uid : Z) (raw : string) (tests : list string)
  : gmap string pyval :=
  list_to_map [("task_id", tid); ("user_telegram_id", PInt uid);
               ("config_raw", PStr raw); ("tests", PList (PStr <$> tests))].


(** *** Requests *)

Definition node_uri : string := "vmess://" +:+ node_b64.

(** One passing kind among a failing and a hanging one. *)
Definition mixed_payload : gmap string pyval :=
  request (PStr sample_uuid) 7 node_uri
    ["performance"; "stability"; "compliance"].

(** [mixed_payload] once validated. *)
Definition mixed_req : Runner.TaskRequest :=
  {| Runner.task_id := 24197857161011715162171839636988778104%N;
     Runner.user_telegram_id := 7; Runner.username := None; Runner.config_raw := node_uri;
     Runner.tests := ["performance"; "stability"; "compliance"];
     Runner.consent_required := false; Runner.consent_granted := false |}.

(** What the parser returns for [node_uri]. *)
Definition node_parsed : Parsers.ParseResult :=
  {| Parsers.config :=
       Parsers.VMESS
         {| Parsers.vm_id := 24197857161011715162171839636988778104%N;
            Parsers.vm_host := "example.com"; Parsers.vm_port := 443;
            Parsers.vm_aid := None; Parsers.vm_net := Some "ws";
            Parsers.vm_type_field := None; Parsers.vm_tls := Some "tls";
            Parsers.vm_sni := None; Parsers.vm_host_header := None;
            Parsers.vm_path := Some "/ws"; Parsers.vm_name := Some "node";
            Parsers.vm_raw := match node_json with
                              | PDict d => d
                              | _ => []
                              end |};
     Parsers.warnings := [Parsers.aid_warning] |}.

(** A request without [task_id]. *)
Definition no_task_id_payload : gmap string pyval :=
  list_to_map [("user_telegram_id", PInt 7); ("config_raw", PStr node_uri);
               ("tests", PList [PStr "performance"])].

(** A request with an empty list of tests. *)
Definition empty_tests_payload : gmap string pyval :=
  request (PStr sample_uuid) 7 node_uri [].

(** A request whose only oddity is a negative [user_telegram_id]. *)
Definition negative_id_payload : gmap string pyval :=
  request (PStr sample_uuid) (-5) node_uri ["performance"].

(** A request whose [task_id] is no UUID. *)
Definition bad_task_id_payload : gmap string pyval :=
  request (PStr "not-a-uuid") 7 node_uri ["performance"].

(** A VMESS URI whose document has the number 1 as [net]. *)
Definition odd_uri : string := "vmess://" +:+ odd_b64.

(** *** Child processes *)

(** A child that needs five seconds and writes ten bytes to its output
    and three to its error stream. *)
Definition slow_child : Common.Process :=
  {| Common.communicate := fun t =>
       if t <? 5 then Common.Expired
       else Common.Exited (list_byte_of_string "0123456789") (list_byte_of_string "err")
                   (Some 3) |}.

Definition spawn_slow_child (argv : list string) (cwd : option string)
           (env : gmap string string) : py Common.Process :=
  Ret slow_child.

Definition split_on_nothing (text : string) : py (list string) := Ret [text].

End Demo.

(** * Theorems *)

(** ** Derivative matching decides language membership *)

Module ReFacts.
Import Re.

#[local] Hint Constructors Matches : core.
#[local] Arguments String.append : simpl nomatch.

Lemma app_empty_inv (s1 s2 : string) :
  s1 +:+ s2 = EmptyString -> s1 = EmptyString /\ s2 = EmptyString.
Proof. destruct s1; simpl; [auto | discriminate]. Qed.

Lemma app_empty_r (s : string) : s +:+ EmptyString = s.
Proof. induction s; simpl; congruence. Qed.

Lemma app_assoc (s1 s2 s3 : string) : (s1 +:+ s2) +:+ s3 = s1 +:+ (s2 +:+ s3).
Proof. induction s1; simpl; congruence. Qed.

Lemma nullable_complete r : Matches r EmptyString -> nullable r = true.
Proof.
  intros H. remember EmptyString as s eqn:Es.
  induction H; simpl; try discriminate; auto.
  - apply app_empty_inv in Es as [-> ->].
    rewrite IHMatches1, IHMatches2; auto.
  - rewrite IHMatches; auto.
  - rewrite IHMatches; auto using orb_true_r.
Qed.

Lemma nullable_sound r : nullable r = true -> Matches r EmptyString.
Proof.
  induction r; simpl; intros H; try discriminate; auto.
  - apply andb_true_iff in H as [H1 H2].
    change EmptyString with (EmptyString +:+ EmptyString). auto.
  - apply orb_true_iff in H as [H1 | H2]; auto.
Qed.

Lemma deriv_complete r c t : Matches r (String c t) -> Matches (deriv c r) t.
Proof.
  intros H. remember (String c t) as cs eqn:Ecs. revert t Ecs.
  induction H; intros t Ecs; simpl; try discriminate.
  - injection Ecs as -> <-. rewrite H. constructor.
  - destruct s1 as [| c1 s1'].
    + simpl in Ecs. subst s2.
      rewrite (nullable_complete _ H). apply MAltR. auto.
    + simpl in Ecs. injection Ecs as -> <-.
      destruct (nullable r1); [apply MAltL |]; constructor; auto.
  - apply MAltL; auto.
  - apply MAltR; auto.
  - destruct s1 as [| c1 s1'].
    + simpl in Ecs. auto.
    + simpl in Ecs. injection Ecs as -> <-. constructor; auto.
Qed.

Lemma deriv_sound r c s : Matches (deriv c r) s -> Matches r (String c s).
Proof.
  revert s. induction r; simpl; intros s H.
  - inversion H.
  - inversion H.
  - destruct (p c) eqn:Hp; inversion H; subst. constructor; auto.
  - destruct (nullable r1) eqn:Hn.
    + inversion H as [| | | ? ? ? H' | ? ? ? H' | |]; subst.
      * inversion H' as [| | ? ? s1 s2 H1 H2 | | | |]; subst.
        change (String c (s1 +:+ s2)) with (String c s1 +:+ s2). auto.
      * change (String c s) with (EmptyString +:+ String c s).
        constructor; auto using nullable_sound.
    + inversion H as [| | ? ? s1 s2 H1 H2 | | | |]; subst.
      change (String c (s1 +:+ s2)) with (String c s1 +:+ s2). auto.
  - inversion H; subst; auto.
  - inversion H as [| | ? ? s1 s2 H1 H2 | | | |]; subst.
    change (String c (s1 +:+ s2)) with (String c s1 +:+ s2). auto.
Qed.

Lemma fullmatch_spec r s : fullmatch r s = true <-> Matches r s.
Proof.
  revert r. induction s as [| c s IH]; intros r; simpl.
  - split; auto using nullable_sound, nullable_complete.
  - rewrite IH. split; auto using deriv_sound, deriv_complete.
Qed.

Lemma matches_opt_none r : Matches (opt r) EmptyString.
Proof. apply MAltR. constructor. Qed.

Lemma matches_chr c : Matches (chr c) (String c EmptyString).
Proof. constructor. apply Ascii.eqb_refl. Qed.

(** A non-empty word over a character class matches its [+]. *)
Lemma matches_star_cls p s :
  Forall (fun c => p c = true) (list_ascii_of_string s) ->
  Matches (Star (Cls p)) s.
Proof.
  induction s as [| c s IH]; simpl; intros H; [constructor |].
  inversion H; subst.
  change (String c s) with (String c EmptyString +:+ s). auto.
Qed.

Lemma matches_plus_cls p s :
  s <> EmptyString ->
  Forall (fun c => p c = true) (list_ascii_of_string s) ->
  Matches (plus (Cls p)) s.
Proof.
  destruct s as [| c s]; [congruence |]. simpl. intros _ H.
  inversion H; subst.
  change (String c s) with (String c EmptyString +:+ s).
  constructor; auto using matches_star_cls.
Qed.

End ReFacts.

(** ** Hostname validation *)

Module HostnameFacts.
Import Parsers Spec.
#[local] Arguments String.append : simpl nomatch.

Lemma hexcolon_no_space c : hexcolon c = true -> PyStr.is_space c = false.
Proof.
  destruct c as [[] [] [] [] [] [] [] []]; vm_compute; congruence.
Qed.

Lemma no_space_app s t : no_space s -> no_space t -> no_space (s +:+ t).
Proof.
  unfold no_space. induction s as [| c s IH]; simpl; intros Hs Ht; [done |].
  inversion Hs; subst. constructor; auto.
Qed.

Lemma rstrip_no_space s : no_space s -> PyStr.rstrip_by PyStr.is_space s = s.
Proof.
  unfold no_space. induction s as [| c s IH]; simpl; intros H; [done |].
  inversion H as [| ? ? Hc Hs]; subst. rewrite (IH Hs).
  destruct s; [by rewrite Hc | done].
Qed.

Lemma strip_no_space s : no_space s -> PyStr.strip s = s.
Proof.
  intros H. unfold PyStr.strip, PyStr.lstrip_by.
  replace (PyStr.drop_while PyStr.is_space s) with s.
  - by apply rstrip_no_space.
  - destruct s as [| c s]; [done |]. simpl.
    inversion H as [| ? ? Hc Hs]; subst. by rewrite Hc.
Qed.

Lemma ipv6_like_no_space h : ipv6_like h -> no_space h.
Proof.
  intros (ob & body & cb & -> & Hob & Hcb & _ & Hbody).
  apply no_space_app; [| apply no_space_app].
  - destruct Hob as [-> | ->]; repeat constructor.
  - unfold no_space. eapply Forall_impl; [exact Hbody |].
    intros c. apply hexcolon_no_space.
  - destruct Hcb as [-> | ->]; repeat constructor.
Qed.

Lemma ipv6_like_matches h : ipv6_like h -> Re.match_anchored _IPV6_RE h = true.
Proof.
  intros (ob & body & cb & -> & Hob & Hcb & Hne & Hbody).
  unfold Re.match_anchored. apply ReFacts.fullmatch_spec.
  rewrite <- (ReFacts.app_empty_r (ob +:+ body +:+ cb)).
  constructor; [| apply ReFacts.matches_opt_none].
  unfold _IPV6_RE. constructor; [| constructor].
  - destruct Hob as [-> | ->].
    + apply ReFacts.matches_opt_none.
    + apply Re.MAltL, ReFacts.matches_chr.
  - by apply ReFacts.matches_plus_cls.
  - destruct Hcb as [-> | ->].
    + apply ReFacts.matches_opt_none.
    + apply Re.MAltL, ReFacts.matches_chr.
Qed.

(** C9. A host that consists of hexadecimal digits and colons (at
    least one), optionally preceded by an opening and followed by a
    closing bracket, matches the IPv6 pattern, and [_validate_hostname]
    returns it unchanged whatever the IDNA encoder would say of it: the
    encoder is not consulted. *)
Theorem C9_hex_words_pass_as_ipv6 (idna_encodes : string -> bool) (h : string) :
  ipv6_like h ->
  Re.match_anchored _IPV6_RE h = true
  /\ PyStr.strip h = h
  /\ _validate_hostname idna_encodes h = Ret h.
Proof.
  intros H.
  pose proof (ipv6_like_matches h H) as Hm.
  pose proof (strip_no_space h (ipv6_like_no_space h H)) as Hs.
  repeat split; try done.
  unfold _validate_hostname. rewrite Hs, Hm.
  by rewrite orb_true_r.
Qed.

(** C9 on the word [cafe], with an encoder that rejects every name. *)
Lemma C9_witness :
  ipv6_like "cafe"
  /\ _validate_hostname (fun _ => false) "cafe" = Ret "cafe".
Proof.
  assert (H : ipv6_like "cafe").
  { exists EmptyString, "cafe", EmptyString.
    repeat split; auto; try discriminate; repeat constructor. }
  split; [exact H |].
  exact (proj2 (proj2 (C9_hex_words_pass_as_ipv6 (fun _ => false) "cafe" H))).
Defined.

Example deadbeef_is_a_host :
  _validate_hostname (fun _ => false) "deadbeef" = Ret "deadbeef"
  /\ _validate_hostname (fun _ => false) "[::1]" = Ret "[::1]"
  /\ _validate_hostname (fun _ => false) "example.com"
     = Raise (ValueError "invalid hostname: example.com").
Proof. repeat split; reflexivity. Qed.

End HostnameFacts.

(** ** De-duplication of the requested kinds *)

Module DedupeFacts.
Import Runner Spec.
#[local] Open Scope list_scope.

Lemma dedupe_snoc l x : dedupe (l ++ [x]) = fromkeys_step (dedupe l) x.
Proof. unfold dedupe. by rewrite fold_left_app. Qed.

Lemma elem_of_dedupe l x : x ∈ dedupe l <-> x ∈ l.
Proof.
  revert x. induction l as [| y l IH] using rev_ind; intros x; [done |].
  rewrite dedupe_snoc. unfold fromkeys_step. case_bool_decide as Hy.
  - rewrite elem_of_app, list_elem_of_singleton, IH.
    split; [auto |]. intros [? | ->]; [done | by apply IH].
  - by rewrite !elem_of_app, IH.
Qed.

Lemma NoDup_dedupe l : NoDup (dedupe l).
Proof.
  induction l as [| y l IH] using rev_ind; [constructor |].
  rewrite dedupe_snoc. unfold fromkeys_step. case_bool_decide as Hy; [done |].
  apply NoDup_app. split; [done |]. split; [| apply NoDup_singleton].
  intros z Hz ->%list_elem_of_singleton. done.
Qed.

Lemma omap_ext_in {A B} (f g : A -> option B) (l : list A) :
  (forall x, x ∈ l -> f x = g x) -> omap f l = omap g l.
Proof.
  intros H. apply list_omap_ext, Forall_Forall2_diag, Forall_forall. exact H.
Qed.

Lemma first_occurrences_snoc l x :
  first_occurrences (l ++ [x])
  = first_occurrences l ++ (if bool_decide (x ∈ l) then [] else [x]).
Proof.
  unfold first_occurrences.
  rewrite length_app, Nat.add_1_r, seq_S, omap_app. simpl. f_equal.
  - apply omap_ext_in. intros i [_ Hi]%elem_of_seq. simpl in Hi.
    rewrite lookup_app_l by done. rewrite take_app_le by lia. done.
  - rewrite list_lookup_middle by done. rewrite take_app_length.
    by case_bool_decide.
Qed.

Lemma dedupe_first_occurrences l : dedupe l = first_occurrences l.
Proof.
  induction l as [| x l IH] using rev_ind; [done |].
  rewrite dedupe_snoc, first_occurrences_snoc, <- IH. unfold fromkeys_step.
  destruct (decide (x ∈ l)) as [Hx | Hx].
  - rewrite !bool_decide_eq_true_2; [by rewrite app_nil_r | done | by apply elem_of_dedupe].
  - rewrite !bool_decide_eq_false_2; [done | done | by rewrite elem_of_dedupe].
Qed.

Lemma repeated_kind_same_response
      (idna_encodes : string -> bool) (yarl_URL : string -> py Parsers.Url)
      (b64_json_loads : string -> option pyval) (settings : Settings)
      (registry : Plugins.Registry) (payload : gmap string pyval) :
  execute_request_async idna_encodes yarl_URL b64_json_loads settings registry
    (<["tests" := PList [PStr "performance"; PStr "stability"; PStr "performance"]]>
       payload)
  = execute_request_async idna_encodes yarl_URL b64_json_loads settings registry
      (<["tests" := PList [PStr "performance"; PStr "stability"]]> payload).
Proof.
  unfold execute_request_async, model_validate, required, optional.
  rewrite !lookup_insert_eq.
  rewrite !lookup_insert_ne by done.
  cbn [as_str_list mapM as_str mbind option_bind mret option_ret min_length_1].
  destruct (payload !! "task_id") as [v1 |]; [destruct (as_uuid v1) |];
  (destruct (payload !! "user_telegram_id") as [v2 |]; [destruct (as_int v2) |]);
  (destruct (payload !! "username") as [v3 |]; [destruct (as_opt_str v3) |]);
  (destruct (payload !! "config_raw") as [v4 |]; [destruct (as_str v4) |]);
  (destruct (payload !! "consent_required") as [v5 |]; [destruct (as_bool v5) |]);
  (destruct (payload !! "consent_granted") as [v6 |]; [destruct (as_bool v6) |]);
  reflexivity.
Qed.

(** C7. De-duplication keeps exactly the first occurrence of each
    requested kind, in the order of the request: [dedupe] returns the
    first occurrences of its argument, a list without repetition that
    has the members of the argument.  The requests
    [performance, stability, performance] and [performance, stability]
    have the same surviving kinds, in the same order, with the same
    warnings, under every configuration, registry and pair of consent
    flags; and two payloads that differ in these two lists only get the
    same response after the same steps. *)
Theorem C7_dedupe_keeps_first_occurrences :
  (forall l, dedupe l = first_occurrences l)
  /\ (forall l, NoDup (dedupe l))
  /\ (forall l k, k ∈ dedupe l <-> k ∈ l)
  /\ (forall (settings : Settings) (registry : Plugins.Registry)
             (req : TaskRequest) (parse_warnings : list string),
        effective settings registry
          (with_tests req ["performance"; "stability"; "performance"]) parse_warnings
        = effective settings registry
            (with_tests req ["performance"; "stability"]) parse_warnings)
  /\ (forall idna_encodes yarl_URL b64_json_loads (settings : Settings)
             (registry : Plugins.Registry) (payload : gmap string pyval),
        execute_request_async idna_encodes yarl_URL b64_json_loads settings registry
          (<["tests" := PList [PStr "performance"; PStr "stability";
                               PStr "performance"]]> payload)
        = execute_request_async idna_encodes yarl_URL b64_json_loads settings registry
            (<["tests" := PList [PStr "performance"; PStr "stability"]]> payload)).
Proof.
  split; [exact dedupe_first_occurrences |].
  split; [exact NoDup_dedupe |].
  split; [exact elem_of_dedupe |].
  split; [intros st reg req pw; reflexivity |].
  exact repeated_kind_same_response.
Qed.

Example dedupe_is_stable :
  dedupe ["stability"; "performance"; "stability"; "compliance"; "performance"]
  = ["stability"; "performance"; "compliance"].
Proof. reflexivity. Qed.

End DedupeFacts.

(** ** The consent gate and the registry check *)

Module GateFacts.
Import Plugins Runner Spec.
#[local] Open Scope list_scope.

Lemma filter_ext_in {A} (P Q : A -> Prop) `{!forall x, Decision (P x)}
      `{!forall x, Decision (Q x)} (l : list A) :
  (forall x, x ∈ l -> P x <-> Q x) -> filter P l = filter Q l.
Proof.
  induction l as [| a l IH]; intros Hext; [done |].
  rewrite !filter_cons.
  rewrite IH by (intros x Hx; apply Hext; by apply list_elem_of_further).
  pose proof (Hext a (list_elem_of_here _ _)) as Ha.
  destruct (decide (P a)), (decide (Q a)); tauto.
Qed.

Lemma filter_all {A} (P : A -> Prop) `{!forall x, Decision (P x)} (l : list A) :
  (forall x, x ∈ l -> P x) -> filter P l = l.
Proof.
  induction l as [| a l IH]; intros Hall; [done |].
  rewrite filter_cons, decide_True by apply Hall, list_elem_of_here.
  f_equal. apply IH. intros x Hx. by apply Hall, list_elem_of_further.
Qed.

Lemma gate_step_spec settings req eff w k :
  gate_step settings req (eff, w) k
  = if decide (k <> KIND_SECURITY_ADV \/ allowed settings req = true)
    then (eff ++ [k], w) else (eff, w ++ [skip_warning]).
Proof.
  unfold gate_step.
  assert (Hb : String.eqb k KIND_SECURITY_ADV
               && (negb (ENABLE_SECURITY_ADVANCED settings)
                   || negb (consent_required req && consent_granted req))
               = negb (negb (String.eqb k KIND_SECURITY_ADV) || allowed settings req)).
  { unfold allowed.
    destruct (String.eqb k KIND_SECURITY_ADV), (ENABLE_SECURITY_ADVANCED settings),
      (consent_required req), (consent_granted req); reflexivity. }
  rewrite Hb. clear Hb.
  destruct (decide (k <> KIND_SECURITY_ADV \/ allowed settings req = true)) as [Hp | Hp].
  - destruct Hp as [Hk | ->]; [| by rewrite orb_true_r].
    apply String.eqb_neq in Hk. by rewrite Hk.
  - destruct (String.eqb_spec k KIND_SECURITY_ADV) as [Hk | Hk]; [| tauto].
    destruct (allowed settings req); [tauto | done].
Qed.

Lemma gate_fold settings req requested eff w :
  fold_left (gate_step settings req) requested (eff, w)
  = (eff ++ filter (fun k => k <> KIND_SECURITY_ADV \/ allowed settings req = true)
              requested,
     w ++ replicate
            (List.length (filter (fun k => k = KIND_SECURITY_ADV
                                           /\ allowed settings req = false) requested))
            skip_warning).
Proof.
  revert eff w. induction requested as [| k l IH]; intros eff w; cbn [fold_left].
  - simpl. by rewrite !app_nil_r.
  - rewrite gate_step_spec, !filter_cons.
    destruct (decide (k <> KIND_SECURITY_ADV \/ allowed settings req = true)) as [Hp | Hp].
    + rewrite IH, <- app_assoc. simpl.
      rewrite decide_False; [done |].
      intros [-> Hf]. destruct Hp as [? | Hp]; [done | congruence].
    + rewrite IH, <- app_assoc. simpl.
      rewrite decide_True; [done |].
      destruct (decide (k = KIND_SECURITY_ADV)) as [-> | Hk]; [| tauto].
      split; [done |]. destruct (allowed settings req); [tauto | done].
Qed.

(** C3. The gating loop keeps a requested kind exactly when it is not
    [security_adv] or the advanced toggle and both consent flags are on;
    every occurrence of [security_adv] that is dropped appends the skip
    warning.  So with [consent_granted] false, or with the toggle off,
    [security_adv] never survives, whatever the other flags are, and
    every other kind passes the gate unconditionally. *)
Theorem C3_consent_gate (settings : Settings) (req : TaskRequest)
        (requested warnings : list string) :
  let gated := consent_gate settings req requested warnings in
  let open := ENABLE_SECURITY_ADVANCED settings
              && consent_required req && consent_granted req in
  fst gated = filter (fun k => k <> KIND_SECURITY_ADV \/ open = true) requested
  /\ snd gated = warnings
               ++ replicate
                    (List.length (filter (fun k => k = KIND_SECURITY_ADV /\ open = false)
                                    requested))
                    skip_warning
  /\ (open = true -> gated = (requested, warnings))
  /\ (open = false ->
      (KIND_SECURITY_ADV ∉ fst gated)
      /\ (KIND_SECURITY_ADV ∈ requested -> skip_warning ∈ snd gated))
  /\ (consent_granted req = false -> KIND_SECURITY_ADV ∉ fst gated)
  /\ (ENABLE_SECURITY_ADVANCED settings = false -> KIND_SECURITY_ADV ∉ fst gated)
  /\ (forall k, k <> KIND_SECURITY_ADV -> k ∈ fst gated <-> k ∈ requested).
Proof.
  intros gated open.
  assert (Hg : gated
               = (filter (fun k => k <> KIND_SECURITY_ADV \/ open = true) requested,
                  warnings
                  ++ replicate
                       (List.length (filter (fun k => k = KIND_SECURITY_ADV /\ open = false)
                                       requested))
                       skip_warning)).
  { unfold gated, consent_gate. by rewrite gate_fold. }
  assert (Hdrop : open = false -> KIND_SECURITY_ADV ∉ fst gated).
  { intros Ho. rewrite Hg. simpl. rewrite list_elem_of_filter.
    intros [[? | ?] _]; congruence. }
  rewrite Hg at 1 2. simpl.
  split; [done |]. split; [done |].
  split.
  { intros Ho. rewrite Hg. f_equal.
    - apply filter_all. auto.
    - rewrite (filter_ext_in _ (fun _ => False)).
      + assert (He : filter (fun _ : string => False) requested = []).
        { clear. induction requested as [| a l IH]; [done |].
          by rewrite filter_cons, decide_False by tauto. }
        rewrite He. simpl. by rewrite app_nil_r.
      + intros k _. split; [intros [_ ?]; congruence | done]. }
  split.
  { intros Ho. split; [by apply Hdrop |].
    intros Hin. rewrite Hg. simpl. apply elem_of_app. right.
    apply elem_of_replicate. split; [done |].
    assert (Hf : KIND_SECURITY_ADV
                 ∈ filter (fun k => k = KIND_SECURITY_ADV /\ open = false) requested).
    { apply list_elem_of_filter. done. }
    intros Hlen%nil_length_inv. rewrite Hlen in Hf. by apply elem_of_nil in Hf. }
  split.
  { intros Hc. apply Hdrop. unfold open. rewrite Hc. by rewrite andb_false_r. }
  split.
  { intros He. apply Hdrop. unfold open. by rewrite He. }
  intros k Hk. rewrite Hg. simpl. rewrite list_elem_of_filter. tauto.
Qed.

End GateFacts.

(** ** The parser returns or raises *)

Module ParserFacts.
Import Parsers.

Lemma bind_ends {A B} (m : py A) (f : A -> py B) :
  m <> Hang -> (forall a, f a <> Hang) -> py_bind m f <> Hang.
Proof. destruct m; simpl; auto. Qed.

Lemma catch_ends {A} (m : py A) (handler : exn -> py A) :
  m <> Hang -> (forall e, handler e <> Hang) -> catch m handler <> Hang.
Proof. destruct m; simpl; auto. Qed.

Lemma reraise_ends {A} (m : py A) e : m <> Hang -> reraise_as m e <> Hang.
Proof. intros H. by apply catch_ends. Qed.

Lemma of_hex_ends hex : Uuid.of_hex hex <> Hang.
Proof.
  unfold Uuid.of_hex. destruct (negb _); [done |].
  destruct (PyStr.int16 _); [| done]. by destruct (_ && _).
Qed.

Lemma to_str_ends v : PyVal.to_str v <> Hang.
Proof. unfold PyVal.to_str. by destruct (PyVal.writable v). Qed.

Lemma py_int_ends text : py_int text <> Hang.
Proof. unfold py_int. by destruct (PyStr.int10 text). Qed.

Lemma validate_hostname_ends idna_encodes host :
  _validate_hostname idna_encodes host <> Hang.
Proof.
  unfold _validate_hostname. destruct (_ || _); [done |].
  by destruct (idna_encodes _).
Qed.

Lemma validate_port_ends port : _validate_port port <> Hang.
Proof.
  unfold _validate_port. apply bind_ends.
  - apply reraise_ends, bind_ends; [apply to_str_ends | intros; apply py_int_ends].
  - intros p. by destruct (negb _).
Qed.

Lemma text_field_ends data k : text_field data k <> Hang.
Proof.
  unfold text_field.
  by destruct (match PyVal.assoc k data with Some _ => _ | None => _ end).
Qed.

Lemma parse_aid_ends data : parse_aid data <> Hang.
Proof.
  unfold parse_aid. apply catch_ends; [| done].
  apply bind_ends; [| done]. unfold read_aid.
  destruct (PyVal.assoc "aid" data); [| done].
  apply bind_ends; [apply to_str_ends |]. intros text.
  destruct (String.eqb _ _); [done |].
  apply bind_ends; [apply to_str_ends |]. intros text'.
  apply bind_ends; [apply py_int_ends | done].
Qed.

Create HintDb ends.
#[local] Hint Resolve of_hex_ends to_str_ends py_int_ends validate_hostname_ends
  validate_port_ends text_field_ends parse_aid_ends : ends.

Section WithLibraries.

Variable idna_encodes : string -> bool.
Variable yarl_URL : string -> py Url.
Variable b64_json_loads : string -> option pyval.
Hypothesis yarl_ends : forall uri, yarl_URL uri <> Hang.

Lemma parse_vless_ends uri : parse_vless idna_encodes yarl_URL uri <> Hang.
Proof.
  unfold parse_vless. apply bind_ends; [apply yarl_ends |]. intros url.
  destruct (negb _); [done |].
  apply bind_ends; [apply reraise_ends; auto with ends |]. intros user_id.
  apply bind_ends; [auto with ends |]. intros host.
  apply bind_ends; [auto with ends |]. done.
Qed.

Lemma parse_vmess_ends uri : parse_vmess idna_encodes b64_json_loads uri <> Hang.
Proof.
  unfold parse_vmess. destruct (negb _); [done |].
  destruct (b64_json_loads _) as [[| | | | | data] |]; try done.
  apply bind_ends.
  { apply reraise_ends, bind_ends; auto with ends. }
  intros user_id. apply bind_ends; [auto with ends |]. intros add.
  apply bind_ends; [auto with ends |]. intros host.
  apply bind_ends; [auto with ends |]. intros port.
  apply bind_ends; [auto with ends |]. intros [aid w_aid].
  repeat (apply bind_ends; [auto with ends |]; intros ?).
  done.
Qed.

Lemma parse_config_ends raw :
  parse_config idna_encodes yarl_URL b64_json_loads raw <> Hang.
Proof.
  unfold parse_config. destruct (String.eqb _ _); [done |].
  destruct (PyStr.startswith _ "vless://"); [apply parse_vless_ends |].
  destruct (PyStr.startswith _ "vmess://"); [apply parse_vmess_ends | done].
Qed.

End WithLibraries.

End ParserFacts.

(** ** The orchestrator *)

Module OrchestratorFacts.
Import Plugins Runner Spec.
#[local] Open Scope list_scope.
#[local] Set Warnings "-clear-no-such-hyp".

Lemma result_entry_dom res : dom (result_entry res) = entry_keys.
Proof. unfold result_entry. by rewrite dom_list_to_map_L. Qed.

Lemma result_entry_ok res : result_entry res !! "ok" = Some (PBool (ok res)).
Proof. reflexivity. Qed.

Lemma existsb_fmap {A B} (f : B -> bool) (g : A -> B) (l : list A) :
  existsb f (g <$> l) = existsb (fun x => f (g x)) l.
Proof. induction l as [| a l IH]; [done |]. cbn. by rewrite <- IH. Qed.

Lemma existsb_ext_in {A} (f g : A -> bool) (l : list A) :
  (forall x, x ∈ l -> f x = g x) -> existsb f l = existsb g l.
Proof.
  induction l as [| a l IH]; intros Hext; [done |]. simpl.
  rewrite (Hext a) by apply list_elem_of_here.
  rewrite IH; [done |]. intros x Hx. by apply Hext, list_elem_of_further.
Qed.

(** *** Aggregation *)

Lemma aggregate_fold_dom pairs m b :
  dom (fst (fold_left aggregate_step pairs (m, b)))
  = dom m ∪ list_to_set pairs.*1.
Proof.
  revert m b. induction pairs as [| [k r] l IH]; intros m b; cbn [fold_left].
  - simpl. set_solver.
  - unfold aggregate_step at 2. rewrite IH, dom_insert_L. simpl. set_solver.
Qed.

Lemma aggregate_fold_ok pairs m b :
  snd (fold_left aggregate_step pairs (m, b))
  = b || existsb (fun p => ok (snd p)) pairs.
Proof.
  revert m b. induction pairs as [| [k r] l IH]; intros m b; cbn [fold_left].
  - simpl. by rewrite orb_false_r.
  - unfold aggregate_step at 2. rewrite IH. simpl. by rewrite orb_assoc.
Qed.

Lemma aggregate_fold_other pairs m b k :
  k ∉ pairs.*1 ->
  fst (fold_left aggregate_step pairs (m, b)) !! k = m !! k.
Proof.
  revert m b. induction pairs as [| [k' r] l IH]; intros m b Hk; cbn [fold_left].
  - done.
  - unfold aggregate_step at 2. simpl in Hk.
    apply not_elem_of_cons in Hk as [Hne Hk].
    rewrite IH by done. by rewrite lookup_insert_ne.
Qed.

Lemma aggregate_fold_lookup pairs m b k r :
  NoDup pairs.*1 -> (k, r) ∈ pairs ->
  fst (fold_left aggregate_step pairs (m, b)) !! k = Some (result_entry r).
Proof.
  revert m b. induction pairs as [| [k' r'] l IH]; intros m b Hnd Hin; cbn [fold_left].
  - by apply elem_of_nil in Hin.
  - unfold aggregate_step at 2. simpl in Hnd. apply NoDup_cons in Hnd as [Hk' Hnd].
    apply elem_of_cons in Hin as [Heq | Hin].
    + injection Heq as -> ->.
      rewrite aggregate_fold_other by done. by rewrite lookup_insert_eq.
    + by apply IH.
Qed.

(** *** The registry check *)

Lemma available_kinds_spec (registry : Registry) k :
  k ∈ available_kinds registry <-> is_Some (registry !! k).
Proof.
  unfold available_kinds.
  rewrite merge_sort_Permutation, elem_of_elements. apply elem_of_dom.
Qed.

Lemma drop_unknown_fst (registry : Registry) eff w :
  fst (drop_unknown registry (eff, w))
  = filter (fun k => k ∈ available_kinds registry) eff.
Proof.
  unfold drop_unknown.
  destruct (filter (fun k => k ∉ available_kinds registry) eff) as [| u us] eqn:Hu.
  - simpl. symmetry. apply GateFacts.filter_all. intros k Hk.
    destruct (decide (k ∈ available_kinds registry)) as [| Hn]; [done |].
    assert (Hin : k ∈ filter (fun k => k ∉ available_kinds registry) eff)
      by (by apply list_elem_of_filter).
    rewrite Hu in Hin. by apply elem_of_nil in Hin.
  - simpl. rewrite <- Hu. apply GateFacts.filter_ext_in. intros k Hk.
    rewrite list_elem_of_filter.
    destruct (decide (k ∈ available_kinds registry)); tauto.
Qed.

Lemma drop_unknown_snd (registry : Registry) eff w :
  exists w', snd (drop_unknown registry (eff, w)) = w ++ w'.
Proof.
  unfold drop_unknown.
  destruct (filter _ eff); simpl; [exists [] | eauto]. by rewrite app_nil_r.
Qed.

Lemma effective_fst settings (registry : Registry) req pw :
  fst (effective settings registry req pw)
  = filter (fun k => k ∈ available_kinds registry)
      (fst (consent_gate settings req (dedupe (tests req)) pw)).
Proof.
  unfold effective.
  destruct (consent_gate settings req (dedupe (tests req)) pw) as [e w].
  apply drop_unknown_fst.
Qed.

Lemma effective_registered settings (registry : Registry) req pw k :
  k ∈ fst (effective settings registry req pw) -> is_Some (registry !! k).
Proof.
  rewrite effective_fst, list_elem_of_filter. intros [H _].
  by apply available_kinds_spec.
Qed.

Lemma effective_NoDup settings (registry : Registry) req pw :
  NoDup (fst (effective settings registry req pw)).
Proof.
  rewrite effective_fst. apply NoDup_filter.
  unfold consent_gate. rewrite GateFacts.gate_fold. simpl.
  apply NoDup_filter, DedupeFacts.NoDup_dedupe.
Qed.

Section WithEnvironment.

Variable idna_encodes : string -> bool.
Variable yarl_URL : string -> py Parsers.Url.
Variable b64_json_loads : string -> option pyval.
Variable settings : Settings.
Variable _REGISTRY : Registry.

Abbreviation execute :=
  (execute_request_async idna_encodes yarl_URL b64_json_loads settings _REGISTRY).
Abbreviation normalize :=
  (_normalize_config idna_encodes yarl_URL b64_json_loads).

Lemma run_single_registered ctx k :
  is_Some (_REGISTRY !! k) ->
  _run_single _REGISTRY k ctx = ([EvRun k], Ret (single _REGISTRY ctx k)).
Proof.
  intros [plugin Hp]. unfold _run_single, single, make_plugin. rewrite Hp.
  simpl. by destruct (run plugin ctx).
Qed.

Lemma gather_registered sem ctx ks :
  0 < sem ->
  Forall (fun k => is_Some (_REGISTRY !! k)) ks ->
  gather (_guarded _REGISTRY sem ctx) ks
  = (EvRun <$> ks, Ret (single _REGISTRY ctx <$> ks)).
Proof.
  intros Hsem. induction 1 as [| k ks Hk _ IH]; [done |].
  cbn [gather]. rewrite IH. unfold _guarded.
  rewrite (proj2 (Z.ltb_lt 0 sem) Hsem), run_single_registered by done.
  unfold Io.bind, Io.ret. simpl. by rewrite app_nil_r.
Qed.

Lemma gather_no_slot ctx k ks :
  gather (_guarded _REGISTRY 0 ctx) (k :: ks) = ([], Hang).
Proof. reflexivity. Qed.

Lemma normalize_spec raw :
  normalize raw
  = ([EvParse raw],
     parsed <- Parsers.parse_config idna_encodes yarl_URL b64_json_loads raw ;;
     Ret (Parsers.config parsed, Parsers.warnings parsed))%py.
Proof.
  unfold _normalize_config.
  by destruct (Parsers.parse_config idna_encodes yarl_URL b64_json_loads raw).
Qed.

(** What happens after a successful parse, by the bound on the plugins
    that run at a time. *)
Lemma execute_parsed payload req parsed eff w :
  model_validate payload = inr req ->
  Parsers.parse_config idna_encodes yarl_URL b64_json_loads (config_raw req)
  = Ret parsed ->
  effective settings _REGISTRY req (Parsers.warnings parsed) = (eff, w) ->
  eff <> [] ->
  execute payload
  = if MAX_PARALLEL_PLUGINS settings <? 0
    then ([EvParse (config_raw req)],
          Raise (ValueError "Semaphore initial value must be >= 0"))
    else if 0 <? MAX_PARALLEL_PLUGINS settings
         then (EvParse (config_raw req) :: (EvRun <$> eff),
               Ret (ran settings _REGISTRY req (Parsers.config parsed) eff w))
         else ([EvParse (config_raw req)], Hang).
Proof.
  intros Hv Hp He Hne. unfold execute_request_async. rewrite Hv.
  rewrite normalize_spec, Hp. unfold Io.try_except. cbn [py_bind]. rewrite He.
  assert (Hreg : Forall (fun k => is_Some (_REGISTRY !! k)) eff).
  { apply Forall_forall. intros k Hk.
    apply (effective_registered settings _REGISTRY req (Parsers.warnings parsed)).
    by rewrite He. }
  destruct eff as [| k0 eff']; [done |].
  unfold Semaphore.
  destruct (Z.ltb_spec (MAX_PARALLEL_PLUGINS settings) 0) as [Hneg | Hnn]; [done |].
  destruct (Z.ltb_spec 0 (MAX_PARALLEL_PLUGINS settings)) as [Hpos | Hzero].
  - unfold Io.lift, Io.bind at 1. rewrite (gather_registered _ _ _ Hpos Hreg).
    unfold ran, Io.bind, Io.ret.
    destruct (aggregate _) as [results_map any_ok]. simpl.
    by rewrite app_nil_r.
  - replace (MAX_PARALLEL_PLUGINS settings) with 0 by lia. reflexivity.
Qed.

Lemma execute_ran payload req parsed eff w :
  0 < MAX_PARALLEL_PLUGINS settings ->
  model_validate payload = inr req ->
  Parsers.parse_config idna_encodes yarl_URL b64_json_loads (config_raw req)
  = Ret parsed ->
  effective settings _REGISTRY req (Parsers.warnings parsed) = (eff, w) ->
  eff <> [] ->
  execute payload
  = (EvParse (config_raw req) :: (EvRun <$> eff),
     Ret (ran settings _REGISTRY req (Parsers.config parsed) eff w)).
Proof.
  intros Hsem Hv Hp He Hne.
  rewrite (execute_parsed payload req parsed eff w Hv Hp He Hne).
  destruct (Z.ltb_spec (MAX_PARALLEL_PLUGINS settings) 0); [lia |].
  by rewrite (proj2 (Z.ltb_lt 0 _) Hsem).
Qed.

Lemma single_result_of ctx k :
  is_Some (_REGISTRY !! k) ->
  result_of _REGISTRY ctx k = Some (snd (single _REGISTRY ctx k)).
Proof. intros [plugin Hp]. unfold result_of, single. by rewrite Hp. Qed.

Lemma result_entry_records res : records (result_entry res) res.
Proof. unfold records. by rewrite result_entry_dom. Qed.

(** C5 (amended). When a request is valid, its configuration parses,
    at least one kind survives the gate and the registry check, and
    the configuration lets at least one plugin run at a time, the
    orchestrator returns a response (it does not raise) in which:
    [ok] is the disjunction, over the surviving kinds, of the success
    flags of their plugins' results, which are the flags that
    [results] records; one passing kind is enough for [ok] to be true;
    the keys of [results] are exactly the surviving kinds; the entry of
    a surviving kind holds the ok, metrics, warnings and error of what
    its plugin did (its own result, or a failure that names the timeout
    or the exception), and no entry has another field; and [errors] is
    empty.  Each surviving kind's plugin ran once, in the order of the
    surviving kinds. *)
Theorem C5_aggregated_response payload req parsed eff w :
  0 < MAX_PARALLEL_PLUGINS settings ->
  model_validate payload = inr req ->
  Parsers.parse_config idna_encodes yarl_URL b64_json_loads (config_raw req)
  = Ret parsed ->
  effective settings _REGISTRY req (Parsers.warnings parsed) = (eff, w) ->
  eff <> [] ->
  exists resp,
    Io.outcome (execute payload) = Ret resp
    /\ Io.trace (execute payload) = EvParse (config_raw req) :: (EvRun <$> eff)
    /\ r_ok resp
       = existsb (passed _REGISTRY (build_context settings req (Parsers.config parsed)))
           eff
    /\ r_ok resp = existsb (success_flag resp) eff
    /\ ((exists k, k ∈ eff
                   /\ passed _REGISTRY
                        (build_context settings req (Parsers.config parsed)) k = true)
        -> r_ok resp = true)
    /\ dom (r_results resp) = list_to_set eff
    /\ (forall k, k ∈ eff ->
          exists res e,
            result_of _REGISTRY (build_context settings req (Parsers.config parsed)) k
            = Some res
            /\ r_results resp !! k = Some e
            /\ records e res)
    /\ (forall k e, r_results resp !! k = Some e -> dom e = entry_keys)
    /\ r_errors resp = [].
Proof.
  intros Hsem Hv Hp He Hne.
  rewrite (execute_ran payload req parsed eff w Hsem Hv Hp He Hne).
  eexists. split; [reflexivity |]. split; [reflexivity |].
  set (ctx := build_context settings req (Parsers.config parsed)).
  assert (Hreg : forall k, k ∈ eff -> is_Some (_REGISTRY !! k)).
  { intros k Hk.
    apply (effective_registered settings _REGISTRY req (Parsers.warnings parsed)).
    by rewrite He. }
  assert (Hkeys : (single _REGISTRY ctx <$> eff).*1 = eff).
  { rewrite <- list_fmap_compose.
    replace (fst ∘ single _REGISTRY ctx) with (@id string) by done.
    apply list_fmap_id. }
  assert (Hnd : NoDup (single _REGISTRY ctx <$> eff).*1).
  { rewrite Hkeys.
    pose proof (effective_NoDup settings _REGISTRY req (Parsers.warnings parsed)) as H.
    by rewrite He in H. }
  assert (Hlook : forall k, k ∈ eff ->
            fst (aggregate (single _REGISTRY ctx <$> eff)) !! k
            = Some (result_entry (snd (single _REGISTRY ctx k)))).
  { intros k Hk. apply aggregate_fold_lookup; [done |].
    apply list_elem_of_fmap. exists k. by split. }
  assert (Hok : snd (aggregate (single _REGISTRY ctx <$> eff))
                = existsb (passed _REGISTRY ctx) eff).
  { unfold aggregate. rewrite aggregate_fold_ok. simpl.
    rewrite existsb_fmap. apply existsb_ext_in. intros k Hk.
    unfold passed. by rewrite (single_result_of ctx k (Hreg k Hk)). }
  unfold ran. fold ctx. cbn [r_ok r_results r_errors].
  split; [exact Hok |].
  split; [| split; [| split; [| split; [| split; [| done]]]]].
  - unfold aggregate at 1. rewrite aggregate_fold_ok. simpl.
    rewrite existsb_fmap. apply existsb_ext_in. intros k Hk.
    unfold success_flag. cbn [r_results].
    by rewrite Hlook, result_entry_ok.
  - intros (k & Hk & Hpass). rewrite Hok. apply existsb_exists.
    exists k. split; [by apply list_elem_of_In | done].
  - unfold aggregate. rewrite aggregate_fold_dom, Hkeys, dom_empty_L. set_solver.
  - intros k Hk. eexists _, _.
    split; [exact (single_result_of ctx k (Hreg k Hk)) |].
    split; [exact (Hlook k Hk) |]. apply result_entry_records.
  - intros k e Hk.
    destruct (decide (k ∈ eff)) as [Hin | Hout].
    + rewrite Hlook in Hk by done. injection Hk as <-. apply result_entry_dom.
    + unfold aggregate in Hk. rewrite aggregate_fold_other in Hk.
      * by rewrite lookup_empty in Hk.
      * by rewrite Hkeys.
Qed.

(** What the bound on the plugins that run at a time does when it is
    not positive: a negative bound is refused by the semaphore, after
    the configuration has been parsed, and the orchestrator raises; a
    bound of zero leaves every plugin waiting, and the orchestrator
    never answers.  No plugin runs in either case. *)
Lemma execute_without_slots payload req parsed eff w :
  MAX_PARALLEL_PLUGINS settings <= 0 ->
  model_validate payload = inr req ->
  Parsers.parse_config idna_encodes yarl_URL b64_json_loads (config_raw req)
  = Ret parsed ->
  effective settings _REGISTRY req (Parsers.warnings parsed) = (eff, w) ->
  eff <> [] ->
  execute payload
  = ([EvParse (config_raw req)],
     if MAX_PARALLEL_PLUGINS settings =? 0 then Hang
     else Raise (ValueError "Semaphore initial value must be >= 0")).
Proof.
  intros Hsem Hv Hp He Hne.
  rewrite (execute_parsed payload req parsed eff w Hv Hp He Hne).
  destruct (Z.ltb_spec (MAX_PARALLEL_PLUGINS settings) 0) as [Hneg | Hnn].
  - by rewrite (proj2 (Z.eqb_neq _ 0)) by lia.
  - replace (MAX_PARALLEL_PLUGINS settings) with 0 by lia. reflexivity.
Qed.

(** *** Requests that fail validation *)

Lemma execute_invalid payload ve :
  model_validate payload = inl ve ->
  execute payload
  = match Uuid.of_pyval (default (PStr Uuid.nil_text) (payload !! "task_id")) with
    | Ret tid => ([], Ret (validation_failure tid ve))
    | Raise e => ([], Raise e)
    | Hang => ([], Hang)
    end.
Proof.
  intros Hv. unfold execute_request_async. rewrite Hv.
  by destruct (Uuid.of_pyval _).
Qed.

Lemma missing_task_id_invalid payload :
  payload !! "task_id" = None ->
  exists ve, model_validate payload = inl ve
             /\ {| loc := "task_id"; msg := "Field required" |} ∈ ve.
Proof.
  intros Hk. unfold model_validate.
  assert (Hr : required payload "task_id" as_uuid "UUID"
               = inl [{| loc := "task_id"; msg := "Field required" |}])
    by (unfold required; by rewrite Hk).
  rewrite Hr. eexists. split; [reflexivity |]. simpl. apply list_elem_of_here.
Qed.

(** C10. A payload without a [task_id] key fails validation, and the
    orchestrator answers, without parsing the configuration or running
    a plugin, with the all-zero UUID as [task_id], [ok] false, no
    results and exactly one error, which reports the validation
    failure. *)
Theorem C10_missing_task_id_gets_nil_uuid payload :
  payload !! "task_id" = None ->
  exists ve,
    model_validate payload = inl ve
    /\ execute payload
       = ([], Ret {| r_task_id := 0%N; r_ok := false; r_results := ∅;
                     r_warnings := [];
                     r_errors := ["validation error: " +:+ ve_str ve] |})
    /\ Uuid.to_str 0%N = "00000000-0000-0000-0000-000000000000".
Proof.
  intros Hk. destruct (missing_task_id_invalid payload Hk) as (ve & Hv & _).
  exists ve. split; [done |]. split; [| by vm_compute].
  rewrite (execute_invalid payload ve Hv), Hk. reflexivity.
Qed.

Lemma empty_tests_invalid payload :
  payload !! "tests" = Some (PList []) ->
  exists ve, model_validate payload = inl ve.
Proof.
  intros Hk. unfold model_validate.
  assert (Hr : min_length_1 "tests" (required payload "tests" as_str_list "list")
               = inl [{| loc := "tests";
                         msg := "List should have at least 1 item after validation, not 0" |}])
    by (unfold required; by rewrite Hk).
  rewrite Hr.
  destruct (required payload "task_id" as_uuid "UUID"),
    (required payload "user_telegram_id" as_int "integer"),
    (optional payload "username" as_opt_str "string" None),
    (required payload "config_raw" as_str "string"); eauto.
Qed.

(** C4 (amended). A payload that fails validation, for instance
    because its [tests] list is empty, and whose [task_id] is absent or
    is a text that [uuid.UUID] reads, gets a response with [ok] false,
    no results and the validation failure as its single error; the
    configuration is not parsed and no plugin runs. *)
Theorem C4_invalid_request_is_reported payload tid :
  (payload !! "tests" = Some (PList [])
   \/ exists ve, model_validate payload = inl ve) ->
  Uuid.of_pyval (default (PStr Uuid.nil_text) (payload !! "task_id")) = Ret tid ->
  exists ve,
    model_validate payload = inl ve
    /\ execute payload
       = ([], Ret {| r_task_id := tid; r_ok := false; r_results := ∅;
                     r_warnings := [];
                     r_errors := ["validation error: " +:+ ve_str ve] |}).
Proof.
  intros Hbad Htid.
  assert (Hv : exists ve, model_validate payload = inl ve).
  { destruct Hbad as [He | Hv]; [by apply empty_tests_invalid | done]. }
  destruct Hv as [ve Hv]. exists ve. split; [done |].
  by rewrite (execute_invalid payload ve Hv), Htid.
Qed.

Lemma unreadable_task_id_invalid payload v e :
  payload !! "task_id" = Some v ->
  Uuid.of_pyval v = Raise e ->
  exists ve, model_validate payload = inl ve.
Proof.
  intros Hk He. unfold model_validate.
  assert (Hu : as_uuid v = None).
  { destruct v; try done. simpl in *. rewrite He. by destruct (Re.fullmatch _ _). }
  assert (Hr : required payload "task_id" as_uuid "UUID"
               = inl [{| loc := "task_id"; msg := "Input should be a valid UUID" |}])
    by (unfold required; by rewrite Hk, Hu).
  rewrite Hr. eauto.
Qed.

(** C1 (the failing path). When the payload carries a [task_id] that
    [uuid.UUID] rejects, validation fails and the handler of the
    validation error raises that rejection: the orchestrator returns no
    response. *)
Theorem C1_unreadable_task_id_raises payload v e :
  payload !! "task_id" = Some v ->
  Uuid.of_pyval v = Raise e ->
  execute payload = ([], Raise e).
Proof.
  intros Hk He.
  destruct (unreadable_task_id_invalid payload v e Hk He) as [ve Hv].
  rewrite (execute_invalid payload ve Hv), Hk. simpl. by rewrite He.
Qed.

(** Apart from that path, with room for one plugin at least and a
    URL library that returns or raises, the orchestrator always
    answers. *)
Lemma execute_answers payload tid :
  0 < MAX_PARALLEL_PLUGINS settings ->
  (forall uri, yarl_URL uri <> Hang) ->
  Uuid.of_pyval (default (PStr Uuid.nil_text) (payload !! "task_id")) = Ret tid ->
  exists resp, Io.outcome (execute payload) = Ret resp.
Proof.
  intros Hsem Hyarl Htid. destruct (model_validate payload) as [ve | req] eqn:Hv.
  - rewrite (execute_invalid payload ve Hv), Htid. eauto.
  - destruct (Parsers.parse_config idna_encodes yarl_URL b64_json_loads
                (config_raw req)) as [parsed | e |] eqn:Hp.
    + destruct (effective settings _REGISTRY req (Parsers.warnings parsed))
        as [eff w] eqn:He.
      destruct (decide (eff = [])) as [-> | Hne].
      * unfold execute_request_async. rewrite Hv, normalize_spec, Hp.
        unfold Io.try_except. cbn [py_bind]. rewrite He. simpl. eauto.
      * rewrite (execute_ran payload req parsed eff w Hsem Hv Hp He Hne). eauto.
    + unfold execute_request_async. rewrite Hv, normalize_spec, Hp.
      simpl. eauto.
    + by destruct (ParserFacts.parse_config_ends idna_encodes yarl_URL
                     b64_json_loads Hyarl (config_raw req)).
Qed.

(** The advanced plugin runs only for a request that carries both
    consent flags while the toggle is on. *)
Lemma security_adv_runs_only_when_allowed payload :
  EvRun KIND_SECURITY_ADV ∈ Io.trace (execute payload) ->
  exists req, model_validate payload = inr req /\ allowed settings req = true.
Proof.
  intros Hrun. destruct (model_validate payload) as [ve | req] eqn:Hv.
  - rewrite (execute_invalid payload ve Hv) in Hrun.
    destruct (Uuid.of_pyval _); by apply elem_of_nil in Hrun.
  - exists req. split; [done |].
    destruct (Parsers.parse_config idna_encodes yarl_URL b64_json_loads
                (config_raw req)) as [parsed | e |] eqn:Hp.
    + destruct (effective settings _REGISTRY req (Parsers.warnings parsed))
        as [eff w] eqn:He.
      assert (Hin : KIND_SECURITY_ADV ∈ eff).
      { destruct (decide (eff = [])) as [-> | Hne].
        - unfold execute_request_async in Hrun.
          rewrite Hv, normalize_spec, Hp in Hrun.
          unfold Io.try_except in Hrun. cbn [py_bind] in Hrun.
          rewrite He in Hrun. simpl in Hrun.
          apply list_elem_of_singleton in Hrun. discriminate.
        - rewrite (execute_parsed payload req parsed eff w Hv Hp He Hne) in Hrun.
          destruct (_ <? 0); [| destruct (0 <? _)]; simpl in Hrun.
          + apply list_elem_of_singleton in Hrun. discriminate.
          + apply elem_of_cons in Hrun as [? | Hrun]; [discriminate |].
            apply list_elem_of_fmap in Hrun as (k & Hk & ?). by injection Hk as ->.
          + apply list_elem_of_singleton in Hrun. discriminate. }
      replace eff with (fst (effective settings _REGISTRY req (Parsers.warnings parsed)))
        in Hin by (by rewrite He).
      rewrite effective_fst, list_elem_of_filter in Hin. destruct Hin as [_ Hin].
      unfold consent_gate in Hin. rewrite GateFacts.gate_fold in Hin. simpl in Hin.
      apply list_elem_of_filter in Hin as [[? | ?] _]; done.
    + unfold execute_request_async in Hrun.
      rewrite Hv, normalize_spec, Hp in Hrun. simpl in Hrun.
      apply list_elem_of_singleton in Hrun. discriminate.
    + unfold execute_request_async in Hrun.
      rewrite Hv, normalize_spec, Hp in Hrun. simpl in Hrun.
      apply list_elem_of_singleton in Hrun. discriminate.
Qed.

End WithEnvironment.

(** *** The theorems on explicit requests *)

(** C5 (amended) on a request for a passing, a failing and a hanging
    kind, under the default settings. *)
Lemma C5_witness :
  exists resp,
    Io.outcome (Demo.execute default_settings Demo.mixed_payload) = Ret resp
    /\ Io.trace (Demo.execute default_settings Demo.mixed_payload)
       = EvParse Demo.node_uri :: (EvRun <$> ["performance"; "stability"; "compliance"])
    /\ r_ok resp = true
    /\ dom (r_results resp)
       = list_to_set ["performance"; "stability"; "compliance"]
    /\ r_errors resp = [].
Proof.
  destruct (C5_aggregated_response Demo.idna_encodes Demo.yarl_URL
              Demo.b64_json_loads default_settings Demo.registry Demo.mixed_payload
              Demo.mixed_req Demo.node_parsed ["performance"; "stability"; "compliance"]
              [Parsers.aid_warning])
    as (resp & Hresp & Htrace & Hok & _ & _ & Hdom & _ & _ & Herr).
  - reflexivity.
  - vm_compute. reflexivity.
  - vm_compute. reflexivity.
  - vm_compute. reflexivity.
  - discriminate.
  - exists resp. split; [exact Hresp |]. split; [exact Htrace |].
    split; [rewrite Hok; vm_compute; reflexivity |].
    split; [exact Hdom | exact Herr].
Defined.

(** C5 as stated fails: the same request, valid, parsed and with three
    surviving kinds, gets no response when the configured bound on
    parallel plugins is negative (the semaphore refuses it and the
    orchestrator raises) or zero (no plugin ever gets a slot and the
    orchestrator never returns); no plugin runs. *)
Lemma C5_counterexample :
  model_validate Demo.mixed_payload = inr Demo.mixed_req
  /\ Parsers.parse_config Demo.idna_encodes Demo.yarl_URL Demo.b64_json_loads
       (config_raw Demo.mixed_req) = Ret Demo.node_parsed
  /\ effective (Demo.with_parallel (-1)) Demo.registry Demo.mixed_req
       (Parsers.warnings Demo.node_parsed)
     = (["performance"; "stability"; "compliance"], [Parsers.aid_warning])
  /\ Demo.execute (Demo.with_parallel (-1)) Demo.mixed_payload
     = ([EvParse Demo.node_uri],
        Raise (ValueError "Semaphore initial value must be >= 0"))
  /\ Demo.execute (Demo.with_parallel 0) Demo.mixed_payload
     = ([EvParse Demo.node_uri], Hang)
  /\ answer (Demo.execute (Demo.with_parallel (-1)) Demo.mixed_payload) = None
  /\ answer (Demo.execute (Demo.with_parallel 0) Demo.mixed_payload) = None.
Proof. repeat split; vm_compute; reflexivity. Qed.

Example mixed_task_is_ok :
  r_ok <$> answer (Demo.execute default_settings Demo.mixed_payload) = Some true
  /\ (fun resp => success_flag resp <$> ["performance"; "stability"; "compliance"])
       <$> answer (Demo.execute default_settings Demo.mixed_payload)
     = Some [true; false; false].
Proof. split; vm_compute; reflexivity. Qed.

(** C10 on a request without [task_id]. *)
Lemma C10_witness :
  Demo.no_task_id_payload !! "task_id" = None
  /\ exists ve,
       model_validate Demo.no_task_id_payload = inl ve
       /\ Demo.execute default_settings Demo.no_task_id_payload
          = ([], Ret {| r_task_id := 0%N; r_ok := false; r_results := ∅;
                        r_warnings := [];
                        r_errors := ["validation error: " +:+ ve_str ve] |})
       /\ Uuid.to_str 0%N = "00000000-0000-0000-0000-000000000000".
Proof.
  split; [reflexivity |].
  apply (C10_missing_task_id_gets_nil_uuid Demo.idna_encodes Demo.yarl_URL
           Demo.b64_json_loads default_settings Demo.registry Demo.no_task_id_payload).
  reflexivity.
Defined.

(** C4 (amended) on a request with an empty list of tests. *)
Lemma C4_witness :
  Demo.empty_tests_payload !! "tests" = Some (PList [])
  /\ exists ve,
       model_validate Demo.empty_tests_payload = inl ve
       /\ Demo.execute default_settings Demo.empty_tests_payload
          = ([], Ret {| r_task_id := 24197857161011715162171839636988778104%N;
                        r_ok := false; r_results := ∅; r_warnings := [];
                        r_errors := ["validation error: " +:+ ve_str ve] |}).
Proof.
  split; [reflexivity |].
  apply (C4_invalid_request_is_reported Demo.idna_encodes Demo.yarl_URL
           Demo.b64_json_loads default_settings Demo.registry Demo.empty_tests_payload).
  - left. reflexivity.
  - vm_compute. reflexivity.
Defined.

(** C4 as stated fails: with a non-positive [user_telegram_id] the
    request is valid, the configuration is parsed, the plugin runs and
    the task succeeds. *)
Lemma C4_counterexample :
  Demo.negative_id_payload !! "user_telegram_id" = Some (PInt (-5))
  /\ user_telegram_id <$> (match model_validate Demo.negative_id_payload with
                           | inr req => Some req
                           | inl _ => None
                           end) = Some (-5)
  /\ Io.trace (Demo.execute default_settings Demo.negative_id_payload)
     = [EvParse Demo.node_uri; EvRun "performance"]
  /\ r_ok <$> answer (Demo.execute default_settings Demo.negative_id_payload) = Some true
  /\ r_errors <$> answer (Demo.execute default_settings Demo.negative_id_payload) = Some []
  /\ (dom ∘ r_results) <$> answer (Demo.execute default_settings Demo.negative_id_payload)
     = Some {["performance"]}.
Proof. repeat split; vm_compute; reflexivity. Qed.

(** C1 (the failing path) on a request whose [task_id] is no UUID. *)
Lemma C1_witness :
  Demo.bad_task_id_payload !! "task_id" = Some (PStr "not-a-uuid")
  /\ Demo.execute default_settings Demo.bad_task_id_payload
     = ([], Raise (ValueError "badly formed hexadecimal UUID string")).
Proof.
  split; [reflexivity |].
  apply (C1_unreadable_task_id_raises Demo.idna_encodes Demo.yarl_URL
           Demo.b64_json_loads default_settings Demo.registry
           Demo.bad_task_id_payload (PStr "not-a-uuid")); reflexivity.
Defined.

End OrchestratorFacts.

(** ** VMESS documents with a non-numeric [aid] *)

Module VmessFacts.
Import Parsers Spec.
#[local] Open Scope list_scope.

Lemma text_field_readable data k :
  readable data k = true -> exists o, text_field data k = Ret o.
Proof.
  unfold readable, text_field.
  destruct (PyVal.assoc k data) as [v |]; [| eauto].
  destruct v as [| b | z | s | l | d]; simpl; intros H.
  - eauto.
  - apply negb_true_iff in H. rewrite H. eauto.
  - apply negb_true_iff in H. rewrite H. eauto.
  - destruct (negb (String.eqb s EmptyString)); eauto.
  - destruct l; [eauto | done].
  - destruct d; [eauto | done].
Qed.

Lemma parse_aid_not_numeric data :
  aid_not_numeric data = true -> parse_aid data = Ret (None, [aid_warning]).
Proof.
  unfold aid_not_numeric, parse_aid, read_aid.
  destruct (PyVal.assoc "aid" data) as [v |]; [| done].
  destruct (PyVal.to_str v) as [text | e |]; [| done | done].
  cbv zeta. intros [Hne Hint]%andb_true_iff. cbn [py_bind].
  apply negb_true_iff in Hne. rewrite Hne. unfold py_int.
  destruct (PyStr.int10 _) as [a |]; [| done].
  apply negb_true_iff, bool_decide_eq_false in Hint. destruct Hint. eauto.
Qed.

Section WithLibraries.

Variable idna_encodes : string -> bool.
Variable b64_json_loads : string -> option pyval.

(** C6 (amended). A VMESS URI whose decoded document has a valid id,
    host and port, an [aid] that is not empty and not an integer
    literal, and optional text fields (net, type, tls, sni, host, path,
    ps) that are each absent, falsy or a string, parses: the descriptor
    has no [aid], and the first warning says that [aid] is not numeric
    and is ignored. *)
Theorem C6_non_numeric_aid_is_a_warning uri data :
  PyStr.startswith (PyStr.lower uri) "vmess://" = true ->
  b64_json_loads (_b64pad (PyStr.drop (String.length "vmess://") uri))
  = Some (PDict data) ->
  valid_endpoint idna_encodes data = true ->
  aid_not_numeric data = true ->
  Forall (fun k => readable data k = true) text_keys ->
  exists model rest,
    parse_vmess idna_encodes b64_json_loads uri
    = Ret {| config := VMESS model; warnings := aid_warning :: rest |}
    /\ vm_aid model = None
    /\ vm_raw model = data.
Proof.
  intros Hpre Hdec Hvalid Haid Htext.
  unfold parse_vmess. rewrite Hpre, Hdec. cbn [negb].
  unfold valid_endpoint in Hvalid.
  apply andb_true_iff in Hvalid as [[Hid Hhost]%andb_true_iff Hport].
  destruct (PyVal.to_str (get_default data "id" _)) as [text | |]; [| done | done].
  cbn [py_bind] in Hid |- *. unfold reraise_as, catch.
  destruct (Uuid.of_hex _) as [u | |]; [| done | done].
  destruct (PyVal.to_str (get_default data "add" _)) as [add | |]; [| done | done].
  cbn [py_bind] in Hhost |- *.
  destruct (_validate_hostname _ _) as [h | |]; [| done | done].
  destruct (_validate_port _) as [p | |]; [| done | done].
  cbn [py_bind]. rewrite (parse_aid_not_numeric data Haid).
  unfold text_keys in Htext.
  repeat match goal with
         | H : Forall _ (_ :: _) |- _ =>
             let Hk := fresh "Hk" in
             apply Forall_cons in H as [Hk H];
             apply text_field_readable in Hk as [? Hk]; rewrite Hk;
             cbn [py_bind]
         end.
  cbn [py_bind]. eexists _, _. split; [reflexivity |]. done.
Qed.

End WithLibraries.

(** C6 as stated fails: this document has a valid id, host and port and
    the non-numeric [aid] "abc", but its [net] is the number 1, and the
    parser raises. *)
Lemma C6_counterexample :
  PyStr.startswith (PyStr.lower Demo.odd_uri) "vmess://" = true
  /\ Demo.b64_json_loads (_b64pad (PyStr.drop (String.length "vmess://") Demo.odd_uri))
     = Some (PDict [("add", PStr "1.2.3.4"); ("port", PInt 443);
                    ("id", PStr Demo.sample_uuid); ("aid", PStr "abc");
                    ("net", PInt 1)])
  /\ valid_endpoint Demo.idna_encodes
       [("add", PStr "1.2.3.4"); ("port", PInt 443);
        ("id", PStr Demo.sample_uuid); ("aid", PStr "abc"); ("net", PInt 1)] = true
  /\ aid_not_numeric
       [("add", PStr "1.2.3.4"); ("port", PInt 443);
        ("id", PStr Demo.sample_uuid); ("aid", PStr "abc"); ("net", PInt 1)] = true
  /\ parse_vmess Demo.idna_encodes Demo.b64_json_loads Demo.odd_uri
     = Raise (AttributeError "'int' object has no attribute 'strip'").
Proof. repeat split; vm_compute; reflexivity. Qed.

(** C6 (amended) on a document whose [aid] is the text [abc]. *)
Lemma C6_witness :
  exists model rest,
    parse_vmess Demo.idna_encodes Demo.b64_json_loads Demo.node_uri
    = Ret {| config := VMESS model; warnings := aid_warning :: rest |}
    /\ vm_aid model = None
    /\ vm_raw model = match Demo.node_json with PDict d => d | _ => [] end.
Proof.
  apply (C6_non_numeric_aid_is_a_warning Demo.idna_encodes Demo.b64_json_loads
           Demo.node_uri).
  - vm_compute. reflexivity.
  - vm_compute. reflexivity.
  - vm_compute. reflexivity.
  - vm_compute. reflexivity.
  - repeat constructor.
Defined.

End VmessFacts.

(** ** The sandboxed command runner *)

Module CommandFacts.
Import Common Spec.
#[local] Open Scope list_scope.

Lemma slice_to_take (m : Z) (b : bytes) :
  0 <= m -> slice_to m b = take (Z.to_nat m) b.
Proof. intros Hm. unfold slice_to. by rewrite (proj2 (Z.leb_le 0 m) Hm). Qed.

(** The truncation applied to one stream. *)
Lemma capped (m : Z) (b : bytes) :
  0 <= m ->
  (if Z.of_nat (List.length b) >? m then slice_to m b else b)
  = take (Z.to_nat m) b.
Proof.
  intros Hm. rewrite slice_to_take by done.
  destruct (Z.gtb_spec (Z.of_nat (List.length b)) m) as [Hgt | Hle]; [done |].
  symmetry. apply take_ge. lia.
Qed.

Section WithSystem.

Variable settings : Settings.
Variable os_environ : gmap string string.
Variable shlex_split : string -> py (list string).
Variable create_subprocess_exec :
  list string -> option string -> gmap string string -> py Process.

Abbreviation run :=
  (run_cmd settings os_environ shlex_split create_subprocess_exec).

Lemma run_cmd_spawned source timeout_sec cwd env max_output_bytes argv proc :
  argv_of shlex_split source = Ret argv ->
  create_subprocess_exec argv cwd (default ∅ env ∪ os_environ) = Ret proc ->
  run source timeout_sec cwd env max_output_bytes
  = let t := default (DEFAULT_SUBPROCESS_TIMEOUT_SEC settings) timeout_sec in
    let m := default (DEFAULT_SUBPROCESS_MAX_OUTPUT_BYTES settings) max_output_bytes in
    match communicate proc t with
    | Exited out err returncode =>
        ([EvSpawn argv cwd (default ∅ env ∪ os_environ)],
         Ret {| exit_code := or_zero returncode;
                stdout := if Z.of_nat (List.length out) >? m
                          then slice_to m out else out;
                stderr := if Z.of_nat (List.length err) >? m
                          then slice_to m err else err;
                timeout := false |})
    | Expired =>
        ([EvSpawn argv cwd (default ∅ env ∪ os_environ)],
         Raise (NameError "name 'contextlib' is not defined"))
    end.
Proof.
  intros Hargv Hspawn. unfold run_cmd.
  destruct source as [v | text]; simpl in Hargv.
  - injection Hargv as ->.
    destruct timeout_sec, max_output_bytes; simpl; rewrite Hspawn; simpl;
      by destruct (communicate proc _).
  - destruct timeout_sec, max_output_bytes; simpl; rewrite Hargv; simpl;
      rewrite Hspawn; simpl; by destruct (communicate proc _).
Qed.

(** A negative cap is a slice from the end. *)
Example negative_cap_counts_from_the_end :
  slice_to (-1) (list_byte_of_string "abc") = list_byte_of_string "ab".
Proof. reflexivity. Qed.

(** C8 (amended). When the child ends within the timeout and the cap
    is not negative, [run_cmd] returns a result with [timeout] false and the
    child's return code, in which each stream is the captured stream cut
    to its first [max_output_bytes] bytes: a stream longer than the cap
    comes back with exactly [max_output_bytes] bytes, a stream within
    the cap comes back as it is, each independently of the other. *)
Theorem C8_output_is_capped source timeout_sec cwd env max_output_bytes
        argv proc out err returncode :
  let t := default (DEFAULT_SUBPROCESS_TIMEOUT_SEC settings) timeout_sec in
  let m := default (DEFAULT_SUBPROCESS_MAX_OUTPUT_BYTES settings) max_output_bytes in
  argv_of shlex_split source = Ret argv ->
  create_subprocess_exec argv cwd (default ∅ env ∪ os_environ) = Ret proc ->
  communicate proc t = Exited out err returncode ->
  0 <= m ->
  exists r,
    Io.outcome (run source timeout_sec cwd env max_output_bytes) = Ret r
    /\ stdout r = take (Z.to_nat m) out
    /\ stderr r = take (Z.to_nat m) err
    /\ (m < Z.of_nat (List.length out) -> Z.of_nat (List.length (stdout r)) = m)
    /\ (m < Z.of_nat (List.length err) -> Z.of_nat (List.length (stderr r)) = m)
    /\ (Z.of_nat (List.length out) <= m -> stdout r = out)
    /\ (Z.of_nat (List.length err) <= m -> stderr r = err)
    /\ timeout r = false
    /\ exit_code r = default 0 returncode
    /\ Io.trace (run source timeout_sec cwd env max_output_bytes)
       = [EvSpawn argv cwd (default ∅ env ∪ os_environ)].
Proof.
  intros t m Hargv Hspawn Hcomm Hm.
  rewrite (run_cmd_spawned _ _ _ _ _ _ _ Hargv Hspawn). cbv zeta.
  fold t m. rewrite Hcomm. eexists. split; [reflexivity |].
  cbn [stdout stderr timeout exit_code Io.trace fst].
  rewrite !capped by done.
  repeat split; try done.
  - intros H. rewrite length_take. lia.
  - intros H. rewrite length_take. lia.
  - intros H. apply take_ge. lia.
  - intros H. apply take_ge. lia.
Qed.

(** C2 (the failing path). When the timeout expires, the handler
    refers to [contextlib], a name the module never binds: [run_cmd]
    raises [NameError]; no kill signal is sent and no result is
    returned. *)
Theorem C2_timeout_raises_name_error source timeout_sec cwd env max_output_bytes
        argv proc :
  argv_of shlex_split source = Ret argv ->
  create_subprocess_exec argv cwd (default ∅ env ∪ os_environ) = Ret proc ->
  communicate proc (default (DEFAULT_SUBPROCESS_TIMEOUT_SEC settings) timeout_sec)
  = Expired ->
  run source timeout_sec cwd env max_output_bytes
  = ([EvSpawn argv cwd (default ∅ env ∪ os_environ)],
     Raise (NameError "name 'contextlib' is not defined")).
Proof.
  intros Hargv Hspawn Hcomm.
  rewrite (run_cmd_spawned _ _ _ _ _ _ _ Hargv Hspawn). cbv zeta.
  by rewrite Hcomm.
Qed.

End WithSystem.

(** C8 (amended) on a child that writes ten bytes, with a cap of
    four. *)
Lemma C8_witness :
  exists r,
    Io.outcome (run_cmd default_settings ∅ Demo.split_on_nothing Demo.spawn_slow_child
                  (inl ["probe"]) None None None (Some 4)) = Ret r
    /\ stdout r = list_byte_of_string "0123"
    /\ stderr r = list_byte_of_string "err"
    /\ timeout r = false
    /\ exit_code r = 3.
Proof.
  destruct (C8_output_is_capped default_settings ∅ Demo.split_on_nothing Demo.spawn_slow_child
              (inl ["probe"]) None None None (Some 4) ["probe"] Demo.slow_child
              (list_byte_of_string "0123456789") (list_byte_of_string "err") (Some 3))
    as (r & Hr & Hout & Herr & _ & _ & _ & _ & Ht & Hc & _);
    [reflexivity | reflexivity | reflexivity | done |].
  exists r. repeat split; assumption.
Defined.

(** C8 as stated fails for a negative cap.  Every stream is longer
    than a cap of -1, and the slice [b[:-1]] drops the last byte only:
    of the ten bytes of output nine come back, not -1 and not none, and
    of the three bytes of the error stream two. *)
Lemma C8_counterexample :
  Io.outcome (run_cmd default_settings ∅ Demo.split_on_nothing Demo.spawn_slow_child
                (inl ["probe"]) None None None (Some (-1)))
  = Ret {| exit_code := 3; stdout := list_byte_of_string "012345678";
           stderr := list_byte_of_string "er"; timeout := false |}
  /\ communicate Demo.slow_child (DEFAULT_SUBPROCESS_TIMEOUT_SEC default_settings)
     = Exited (list_byte_of_string "0123456789") (list_byte_of_string "err") (Some 3)
  /\ (Z.of_nat (List.length (list_byte_of_string "0123456789")) >? -1) = true
  /\ Z.of_nat (List.length (list_byte_of_string "012345678")) = 9.
Proof. repeat split. Qed.

(** C2 (the failing path) on a child that needs five seconds, with a
    timeout of one. *)
Lemma C2_witness :
  run_cmd default_settings ∅ Demo.split_on_nothing Demo.spawn_slow_child
    (inl ["probe"]) (Some 1) None None None
  = ([EvSpawn ["probe"] None (default ∅ None ∪ ∅)],
     Raise (NameError "name 'contextlib' is not defined")).
Proof.
  apply (C2_timeout_raises_name_error default_settings ∅ Demo.split_on_nothing
           Demo.spawn_slow_child (inl ["probe"]) (Some 1) None None None
           ["probe"] Demo.slow_child); reflexivity.
Defined.

End CommandFacts.
